(** * The gpucore thermal cooling device (drivers/thermal/gpucore_cooling.c)

    A shallow embedding of the driver: the three thermal callbacks
    (get_max_state, get_cur_state, set_cur_state) over a cooling device and
    the record of calls made to its hardware hook, the id allocator around
    the kernel idr, and device allocation, registration and unregistration
    over a small kernel state. *)

From Stdlib Require Import ZArith Lia.
From stdpp Require Import gmap list strings pretty.

Open Scope Z_scope.

(** ** C integers *)

(** linux/errno-base.h and the limits of int. *)
Definition ENOMEM : Z := 12.
Definition EINVAL : Z := 22.
Definition ENOSPC : Z := 28.
Definition INT_MAX : Z := 2147483647.

(** Conversion to unsigned int and to int (both 32 bits wide). *)
Definition to_uint (z : Z) : Z := z mod 2 ^ 32.
Definition to_int (z : Z) : Z := (z + 2 ^ 31) mod 2 ^ 32 - 2 ^ 31.

(** ** The cooling device *)

(** Modelled from the spec: struct gpucore_cooling_device is declared in
    linux/gpucore_cooling.h, which is not among the sources.  The fields are
    the ones the driver reads and writes: the identity [id] (an int, filled
    through the int pointer given to get_idr), the framework handle
    [cool_dev] (a pointer, 0 being NULL), the current cooling state
    [gpucore_state] (an unsigned int), the maximum state [max_gpu_core_num]
    (an int) and the stop latch [stop_flag] (an int).  The function pointer
    set_max_pp_num is the hardware hook; calling it is recorded in
    [pp_calls] below. *)
Record gpucore_cooling_device := {
  id : Z;
  cool_dev : Z;
  gpucore_state : Z;
  max_gpu_core_num : Z;
  stop_flag : Z
}.

Definition with_id (v : Z) (d : gpucore_cooling_device) :=
  {| id := v; cool_dev := cool_dev d; gpucore_state := gpucore_state d;
     max_gpu_core_num := max_gpu_core_num d; stop_flag := stop_flag d |}.
Definition with_cool_dev (v : Z) (d : gpucore_cooling_device) :=
  {| id := id d; cool_dev := v; gpucore_state := gpucore_state d;
     max_gpu_core_num := max_gpu_core_num d; stop_flag := stop_flag d |}.
Definition with_gpucore_state (v : Z) (d : gpucore_cooling_device) :=
  {| id := id d; cool_dev := cool_dev d; gpucore_state := v;
     max_gpu_core_num := max_gpu_core_num d; stop_flag := stop_flag d |}.
Definition with_max_gpu_core_num (v : Z) (d : gpucore_cooling_device) :=
  {| id := id d; cool_dev := cool_dev d; gpucore_state := gpucore_state d;
     max_gpu_core_num := v; stop_flag := stop_flag d |}.
Definition with_stop_flag (v : Z) (d : gpucore_cooling_device) :=
  {| id := id d; cool_dev := cool_dev d; gpucore_state := gpucore_state d;
     max_gpu_core_num := max_gpu_core_num d; stop_flag := v |}.

(** What kzalloc followed by memset(.., 0, ..) leaves in the structure. *)
Definition zeroed : gpucore_cooling_device :=
  {| id := 0; cool_dev := 0; gpucore_state := 0;
     max_gpu_core_num := 0; stop_flag := 0 |}.

(** ** The callbacks, as state transformers *)

(** What a callback runs against: the device behind cdev->devdata and the
    arguments the hook set_max_pp_num has been called with, oldest first. *)
Record world := {
  dev : gpucore_cooling_device;
  pp_calls : list Z
}.

Definition M (A : Type) : Type := world -> A * world.

#[export] Instance M_ret : MRet M := fun A a w => (a, w).
#[export] Instance M_bind : MBind M :=
  fun A B f m w => let (a, w') := m w in f a w'.

Definition read_dev : M gpucore_cooling_device := fun w => (dev w, w).
Definition write_dev (f : gpucore_cooling_device -> gpucore_cooling_device)
  : M unit :=
  fun w => (tt, {| dev := f (dev w); pp_calls := pp_calls w |}).
Definition set_max_pp_num (pp_num : Z) : M unit :=
  fun w => (tt, {| dev := dev w; pp_calls := pp_calls w ++ [pp_num] |}).

Section Driver.

(** GPU_STOP comes from linux/gpucore_cooling.h and the width of long from
    the target; both are parameters of the development.  The state argument
    of set_cur_state is an unsigned long; the complement of GPU_STOP is
    taken over all of Z, bits above the width of the flag's own type reaching
    neither the stored state nor the argument of the hook, which are both cut
    to 32 bits. *)
Variable GPU_STOP : Z.
Variable BITS_PER_LONG : Z.
Hypothesis long_bits : 32 <= BITS_PER_LONG.

#[local] Set Default Proof Using "Type".

Definition to_ulong (z : Z) : Z := z mod 2 ^ BITS_PER_LONG.

(** ERR_PTR(err): the error code as a pointer. *)
Definition ERR_PTR (err : Z) : Z := to_ulong err.

(** gpucore_get_max_state: the return code and the value left in *state. *)
Definition gpucore_get_max_state : M (Z * Z) :=
  gpucore_device ← read_dev;
  let state := to_ulong (max_gpu_core_num gpucore_device) in
  mret (0, state).

(** gpucore_get_cur_state: the return code and the value left in *state. *)
Definition gpucore_get_cur_state : M (Z * Z) :=
  gpucore_device ← read_dev;
  let state := to_ulong (gpucore_state gpucore_device) in
  mret (0, state).

(** The part of gpucore_set_cur_state that runs with cooling_gpucore_lock
    held: [None] when the latch is already set (the call returns 0 at once),
    otherwise the state to go on with, the STOP flag taken out. *)
Definition locked_section (state : Z) : M (option Z) :=
  gpucore_device ← read_dev;
  if negb (stop_flag gpucore_device =? 0) then mret None
  else if Z.land state GPU_STOP =? GPU_STOP then
    write_dev (with_stop_flag 1);;
    mret (Some (Z.land state (Z.lnot GPU_STOP)))
  else mret (Some state).

(** The part that runs after the lock is dropped, statement by statement:
    the store to gpucore_state, then the computation of set_max_num and the
    call of the hook. *)
Definition store_state (state : Z) : M unit :=
  write_dev (with_gpucore_state (to_uint state)).

Definition apply_cores (state : Z) : M Z :=
  gpucore_device ← read_dev;
  let set_max_num :=
    to_int (to_ulong (max_gpu_core_num gpucore_device - state)) in
  set_max_pp_num (to_uint set_max_num);;
  mret 0.

Definition unlocked_section (state : Z) : M Z :=
  store_state state;;
  apply_cores state.

Definition gpucore_set_cur_state (state : Z) : M Z :=
  r ← locked_section state;
  match r with
  | None => mret 0
  | Some state => unlocked_section state
  end.

(** A governor driving the device: one set_cur_state call per request, the
    return codes collected. *)
Fixpoint requests (l : list Z) : M (list Z) :=
  match l with
  | [] => mret []
  | state :: l =>
      r ← gpucore_set_cur_state state;
      rs ← requests l;
      mret (r :: rs)
  end.

(** The request carries the STOP flag, as set_cur_state tests it. *)
Definition has_stop (state : Z) : Prop := Z.land state GPU_STOP = GPU_STOP.

(** The cooling state a request asks for, the flag left out. *)
Definition requested (state : Z) : Z :=
  if Z.land state GPU_STOP =? GPU_STOP then Z.land state (Z.lnot GPU_STOP)
  else state.

(** ** Calls racing on one device *)

(** Where a call of gpucore_set_cur_state stands: about to take the lock,
    past the unlock and about to store the state, about to call the hook,
    or returned. *)
Inductive call :=
  | AtLock (state : Z)
  | AtStore (state : Z)
  | AtHook (state : Z)
  | Returned (r : Z).

(** One scheduling step of a call: the locked section is one step, as the
    mutex makes it; the two statements after the unlock are one step each. *)
Definition call_step (t : call) : M call :=
  match t with
  | AtLock state =>
      r ← locked_section state;
      mret (match r with None => Returned 0 | Some state => AtStore state end)
  | AtStore state => store_state state;; mret (AtHook state)
  | AtHook state => r ← apply_cores state; mret (Returned r)
  | Returned r => mret (Returned r)
  end.

(** The calls in flight run in the order the schedule names them. *)
Fixpoint interleave (sched : list nat) (ts : list call) : M (list call) :=
  match sched with
  | [] => mret ts
  | i :: sched =>
      match ts !! i with
      | Some t => t' ← call_step t; interleave sched (<[i := t']> ts)
      | None => interleave sched ts
      end
  end.

(** The spec's contract for out-of-range requests, in its words: a request
    whose cooling state exceeds the maximum fails and the hook is not
    called. *)
Definition rejects_out_of_range (w : world) (state : Z) : Prop :=
  max_gpu_core_num (dev w) < requested state ->
  (gpucore_set_cur_state state w).1 <> 0 /\
  pp_calls (gpucore_set_cur_state state w).2 = pp_calls w.

(** ** The kernel around the driver *)

(** The ids in use in gpucore_idr, the gpucore_cooling_device structures
    that are allocated (by address), the cooling devices the thermal
    framework has registered (handle to devdata), and the calls made to the
    hardware hook. *)
Record kernel := {
  gpucore_idr : gset Z;
  kmem : gmap Z gpucore_cooling_device;
  thermal_cdevs : gmap Z Z;
  hw_calls : list Z
}.

Definition boot : kernel :=
  {| gpucore_idr := ∅; kmem := ∅; thermal_cdevs := ∅; hw_calls := [] |}.

(** Kernel code either goes wrong (a pointer that is not valid is followed
    or freed) or returns a result and the next state. *)
Definition K (A : Type) : Type := kernel -> option (A * kernel).

#[export] Instance K_ret : MRet K := fun A a k => Some (a, k).
#[export] Instance K_bind : MBind K :=
  fun A B f m k =>
    match m k with
    | Some (a, k') => f a k'
    | None => None
    end.

Definition with_idr (f : gset Z -> gset Z) : K unit :=
  fun k => Some (tt, {| gpucore_idr := f (gpucore_idr k); kmem := kmem k;
                        thermal_cdevs := thermal_cdevs k;
                        hw_calls := hw_calls k |}).
Definition with_kmem
    (f : gmap Z gpucore_cooling_device -> gmap Z gpucore_cooling_device)
  : K unit :=
  fun k => Some (tt, {| gpucore_idr := gpucore_idr k; kmem := f (kmem k);
                        thermal_cdevs := thermal_cdevs k;
                        hw_calls := hw_calls k |}).
Definition with_cdevs (f : gmap Z Z -> gmap Z Z) : K unit :=
  fun k => Some (tt, {| gpucore_idr := gpucore_idr k; kmem := kmem k;
                        thermal_cdevs := f (thermal_cdevs k);
                        hw_calls := hw_calls k |}).

(** Reading and updating the structure a pointer leads to. *)
Definition load (p : Z) : K gpucore_cooling_device :=
  fun k => d ← kmem k !! p; Some (d, k).
Definition store (p : Z)
    (f : gpucore_cooling_device -> gpucore_cooling_device) : K unit :=
  d ← load p; with_kmem <[p := f d]>.

(** kzalloc, with the address it hands out as [p] (0 when it fails), and
    kfree (of NULL: nothing; of an address not allocated: goes wrong). *)
Definition kzalloc (p : Z) : K Z :=
  if p =? 0 then mret 0 else with_kmem <[p := zeroed]>;; mret p.
Definition kfree (p : Z) : K unit :=
  if p =? 0 then mret tt else load p;; with_kmem (delete p).

(** The smallest integer from [from] on that is not in [used]; [fuel]
    bounds the search. *)
Fixpoint first_unused (used : gset Z) (from : Z) (fuel : nat) : Z :=
  match fuel with
  | O => from
  | S fuel =>
      if decide (from ∈ used) then first_unused used (from + 1) fuel
      else from
  end.

Definition smallest_unused (used : gset Z) : Z :=
  first_unused used 0 (size used).

(** Modelled from the spec: idr_alloc and idr_remove of lib/idr.c are not
    among the sources.  idr_alloc(idr, NULL, 0, 0, GFP_KERNEL) returns the
    smallest unused non-negative integer and marks it used; it fails, with
    a negative error code and the idr unchanged, when no id can be produced:
    no memory ([mem_ok] false) or no id left up to INT_MAX.  idr_remove
    takes the id out of the used set, and does nothing for an id that is
    not in it. *)
Definition idr_alloc (mem_ok : bool) : K Z :=
  used ← (fun k => Some (gpucore_idr k, k)) : K (gset Z);
  let n := smallest_unused used in
  if negb mem_ok then mret (- ENOMEM)
  else if INT_MAX <? n then mret (- ENOSPC)
  else with_idr (union {[n]});; mret n.
Definition idr_remove (n : Z) : K unit :=
  with_idr (fun used => used ∖ {[n]}).

(** Modelled from the spec: thermal_cooling_device_register and
    thermal_cooling_device_unregister of the thermal core are not among the
    sources.  The framework either accepts the binding and hands out the
    handle [c] of a cooling device whose devdata is the structure given, or
    rejects it, which the driver sees as the NULL handle it tests for.
    Unregistering detaches the handle (nothing for a handle it does not
    know). *)
Definition thermal_cooling_device_register (c : Z) (devdata : Z) : K Z :=
  if c =? 0 then mret 0 else with_cdevs <[c := devdata]>;; mret c.
Definition thermal_cooling_device_unregister (c : Z) : K unit :=
  with_cdevs (delete c).

(** cdev->devdata *)
Definition devdata (cdev : Z) : K Z :=
  fun k => p ← thermal_cdevs k !! cdev; Some (p, k).

(** get_idr, the int pointer [id] being the address of the structure whose
    id field it leads to. *)
Definition get_idr (mem_ok : bool) (id_of : Z) : K Z :=
  ret ← idr_alloc mem_ok;
  if ret <? 0 then mret ret
  else store id_of (with_id ret);; mret 0.

Definition release_idr (n : Z) : K unit :=
  idr_remove n.

(** gpucore_cooling_alloc *)
Definition gpucore_cooling_alloc (p : Z) : K Z :=
  gcdev ← kzalloc p;
  if gcdev =? 0 then mret (ERR_PTR (- ENOMEM))
  else store gcdev (fun _ => zeroed);; mret gcdev.

(** gpucore_cooling_register; [mem_ok] and [c] are what the idr and the
    thermal framework answer. *)
Definition gpucore_cooling_register (mem_ok : bool) (c : Z)
    (gpucore_dev : Z) : K Z :=
  ret ← get_idr mem_ok gpucore_dev;
  if negb (ret =? 0) then
    kfree gpucore_dev;;
    mret (ERR_PTR (- EINVAL))
  else
    cool_dev ← thermal_cooling_device_register c gpucore_dev;
    if cool_dev =? 0 then
      d ← load gpucore_dev;
      release_idr (id d);;
      kfree gpucore_dev;;
      mret (ERR_PTR (- EINVAL))
    else
      store gpucore_dev (with_cool_dev cool_dev);;
      store gpucore_dev (with_gpucore_state 0);;
      mret 0.

(** gpucore_cooling_unregister *)
Definition gpucore_cooling_unregister (cdev : Z) : K unit :=
  if cdev =? 0 then mret tt
  else
    gpucore_dev ← devdata cdev;
    d ← load gpucore_dev;
    thermal_cooling_device_unregister (cool_dev d);;
    release_idr (id d);;
    kfree gpucore_dev.

(** The thermal framework calling one of gpucore_cooling_ops on the cooling
    device [cdev]. *)
Definition cdev_call {A} (cdev : Z) (op : M A) : K A :=
  fun k =>
    p ← thermal_cdevs k !! cdev;
    d ← kmem k !! p;
    let (a, w) := op {| dev := d; pp_calls := hw_calls k |} in
    Some (a, {| gpucore_idr := gpucore_idr k;
                kmem := <[p := dev w]> (kmem k);
                thermal_cdevs := thermal_cdevs k;
                hw_calls := pp_calls w |}).

(** The platform code filling in the core count of a structure it has
    allocated, before it registers it. *)
Definition setup (p : Z) (max : Z) : K unit :=
  store p (with_max_gpu_core_num max).

(** A device is brought up: allocated, set up and registered. *)
Definition bring_up (p max : Z) (mem_ok : bool) (c : Z) : K Z :=
  gcdev ← gpucore_cooling_alloc p;
  setup gcdev max;;
  gpucore_cooling_register mem_ok c gcdev.

(** The structure at [p] is bound to a cooling device of the framework. *)
Definition registered (k : kernel) (p : Z) : Prop :=
  exists c, thermal_cdevs k !! c = Some p.

(** A live controller: a registered structure that is still allocated. *)
Definition live (k : kernel) (p : Z) (d : gpucore_cooling_device) : Prop :=
  kmem k !! p = Some d /\ registered k p.

(** What the users of the driver do, one call at a time.  A structure is
    allocated at an address kzalloc may hand out; its owner writes to it
    while it is not registered; a structure is registered once, the
    framework handing out a handle it does not use yet; a cooling device is
    unregistered; the governor requests a cooling state. *)
Inductive step : kernel -> kernel -> Prop :=
  | step_alloc p r k k' :
      kmem k !! p = None ->
      gpucore_cooling_alloc p k = Some (r, k') ->
      step k k'
  | step_setup p f k k' :
      ~ registered k p ->
      store p f k = Some (tt, k') ->
      step k k'
  | step_register mem_ok c p r k k' :
      ~ registered k p ->
      thermal_cdevs k !! c = None ->
      gpucore_cooling_register mem_ok c p k = Some (r, k') ->
      step k k'
  | step_unregister cdev k k' :
      gpucore_cooling_unregister cdev k = Some (tt, k') ->
      step k k'
  | step_set_cur_state cdev state r k k' :
      cdev_call cdev (gpucore_set_cur_state state) k = Some (r, k') ->
      step k k'.

Definition reachable (k : kernel) : Prop := rtc step boot k.

(** [n] successive get_idr calls that all succeed, the ids they issue in
    order; the ids go to the structure at [p]. *)
Fixpoint allocate_ids (n : nat) (p : Z) : K (list Z) :=
  match n with
  | O => mret []
  | S n =>
      get_idr true p;;
      d ← load p;
      ids ← allocate_ids n p;
      mret (id d :: ids)
  end.

Fixpoint release_ids (l : list Z) : K unit :=
  match l with
  | [] => mret tt
  | n :: l => release_idr n;; release_ids l
  end.

(** The kernel once the structure at [p] is freed, and once the structure
    at [p] holds [d]. *)
Definition without_dev (p : Z) (k : kernel) : kernel :=
  {| gpucore_idr := gpucore_idr k; kmem := delete p (kmem k);
     thermal_cdevs := thermal_cdevs k; hw_calls := hw_calls k |}.
Definition with_dev (p : Z) (d : gpucore_cooling_device) (k : kernel)
  : kernel :=
  {| gpucore_idr := gpucore_idr k; kmem := <[p := d]> (kmem k);
     thermal_cdevs := thermal_cdevs k; hw_calls := hw_calls k |}.

(** What holds of every state the users of the driver can bring the kernel
    to: NULL leads nowhere; a registered structure is allocated, points back
    to its cooling device and holds an id that is in use; and two registered
    structures with the same id are the same structure. *)
Definition consistent (k : kernel) : Prop :=
  kmem k !! 0 = None /\
  (forall c p, thermal_cdevs k !! c = Some p ->
     exists d, kmem k !! p = Some d /\ cool_dev d = c /\
               id d ∈ gpucore_idr k) /\
  (forall p1 p2 d1 d2, live k p1 d1 -> live k p2 d2 ->
     id d1 = id d2 -> p1 = p2).

(** ** Sequences of requests *)

(** The requests a device that is not latched serves: those up to and
    including the first one that carries the STOP flag. *)
Fixpoint served (l : list Z) : list Z :=
  match l with
  | [] => []
  | state :: l =>
      if Z.land state GPU_STOP =? GPU_STOP then [state]
      else state :: served l
  end.

(** Whether one of the requests carries the STOP flag. *)
Definition any_stop (l : list Z) : bool :=
  existsb (fun state => Z.land state GPU_STOP =? GPU_STOP) l.

(** What the hook is given for a request on a device with [max] cores. *)
Definition cores_for (max state : Z) : Z := to_uint (max - requested state).

(** ** Ids and their holders *)

(** Every id in use fits an int and is the id of a live controller. *)
Definition accounted (k : kernel) : Prop :=
  forall n, n ∈ gpucore_idr k ->
    0 <= n <= INT_MAX /\ exists p d, live k p d /\ id d = n.

(** ** The name of the cooling device *)

(** THERMAL_NAME_LENGTH, the size of the buffer dev_name, comes from
    linux/thermal.h and is a parameter. *)
Variable THERMAL_NAME_LENGTH : nat.

(** snprintf into a buffer of [size] bytes: the text cut to [size - 1]
    characters, the last byte being kept for the terminating NUL. *)
Definition snprintf (size : nat) (text : string) : string :=
  String.substring 0 (size - 1) text.

(** The text the format "thermal-gpucore-%d" gives for an id. *)
Definition name_text (n : Z) : string := "thermal-gpucore-" +:+ pretty n.

(** The name gpucore_cooling_register builds in dev_name for the id it
    obtained. *)
Definition dev_name (n : Z) : string :=
  snprintf THERMAL_NAME_LENGTH (name_text n).

(** ** Schedules *)

(** A call that is not past its locked section: it has not taken the lock
    yet, or it has returned. *)
Definition outside (t : call) : Prop :=
  match t with
  | AtLock _ | Returned _ => True
  | AtStore _ | AtHook _ => False
  end.


(** ** The scenario of the spec *)

(** The STOP flag in bit 31, a device with eight cores before any request,
    after the request for state 3 and after the request for state 6 with
    the STOP flag. *)
Definition STOP_BIT31 : Z := 0x80000000.

Definition eight_cores : world :=
  {| dev := with_max_gpu_core_num 8 zeroed; pp_calls := [] |}.
Definition throttled : world :=
  {| dev := with_gpucore_state 3 (dev eight_cores); pp_calls := [5] |}.
Definition latched : world :=
  {| dev := with_stop_flag 1 (with_gpucore_state 6 (dev eight_cores));
     pp_calls := [5; 2] |}.

(** Two structures, allocated at 100 and 200 and not registered; and the
    same two registered as the cooling devices 500 and 600. *)
Definition two_allocated : kernel :=
  with_dev 200 (with_max_gpu_core_num 4 zeroed)
    (with_dev 100 (with_max_gpu_core_num 8 zeroed) boot).
Definition two_registered : kernel :=
  {| gpucore_idr := {[0; 1]};
     kmem := {[100 := with_cool_dev 500 (with_max_gpu_core_num 8 zeroed);
               200 := with_cool_dev 600
                        (with_id 1 (with_max_gpu_core_num 4 zeroed))]};
     thermal_cdevs := {[500 := 100; 600 := 200]};
     hw_calls := [] |}.

(** The two registered devices after the request STOP|6 to the first. *)
Definition first_latched : kernel :=
  {| gpucore_idr := {[0; 1]};
     kmem := {[100 := with_stop_flag 1
                        (with_gpucore_state 6
                           (with_cool_dev 500
                              (with_max_gpu_core_num 8 zeroed)));
               200 := with_cool_dev 600
                        (with_id 1 (with_max_gpu_core_num 4 zeroed))]};
     thermal_cdevs := {[500 := 100; 600 := 200]};
     hw_calls := [2] |}.

(** * Properties *)

(** ** Integer conversions *)

Lemma to_uint_small z : 0 <= z < 2 ^ 32 -> to_uint z = z.
Proof. intros. unfold to_uint. apply Z.mod_small. lia. Qed.

Lemma to_uint_to_int z : to_uint (to_int z) = to_uint z.
Proof.
  unfold to_uint, to_int.
  rewrite Zminus_mod_idemp_l. f_equal. lia.
Qed.

Lemma to_uint_to_ulong z : to_uint (to_ulong z) = to_uint z.
Proof using long_bits.
  unfold to_uint, to_ulong.
  apply Z.mod_mod_divide.
  exists (2 ^ (BITS_PER_LONG - 32)).
  rewrite <- Z.pow_add_r by lia. f_equal. lia.
Qed.

Lemma to_ulong_small z : 0 <= z <= INT_MAX -> to_ulong z = z.
Proof using long_bits.
  intros. unfold to_ulong. apply Z.mod_small.
  assert (2 ^ 32 <= 2 ^ BITS_PER_LONG) by (apply Z.pow_le_mono_r; lia).
  unfold INT_MAX in *. lia.
Qed.

(** The value the hook receives: the difference as an unsigned int. *)
Lemma hook_arg z : to_uint (to_int (to_ulong z)) = to_uint z.
Proof using long_bits. now rewrite to_uint_to_int, to_uint_to_ulong. Qed.

Lemma to_uint_wrap z : - 2 ^ 32 <= z < 0 -> to_uint z = z + 2 ^ 32.
Proof.
  intros. unfold to_uint.
  replace z with (z + 2 ^ 32 + (-1) * 2 ^ 32) at 1 by lia.
  rewrite Z.mod_add by lia. apply Z.mod_small. lia.
Qed.

Lemma strip_clears state : Z.land (Z.land state (Z.lnot GPU_STOP)) GPU_STOP = 0.
Proof.
  apply Z.bits_inj'. intros n Hn.
  rewrite !Z.land_spec, Z.lnot_spec, Z.bits_0 by lia.
  destruct (Z.testbit state n), (Z.testbit GPU_STOP n); reflexivity.
Qed.

(** ** What one request does *)

Ltac run_callback :=
  unfold gpucore_set_cur_state, gpucore_get_cur_state, gpucore_get_max_state,
    unlocked_section, locked_section, store_state, apply_cores;
  unfold mbind, M_bind, mret, M_ret, read_dev, write_dev, set_max_pp_num;
  cbn.

Lemma world_eta w : {| dev := dev w; pp_calls := pp_calls w |} = w.
Proof. now destruct w. Qed.

Lemma with_stop_flag_id d : with_stop_flag (stop_flag d) d = d.
Proof. now destruct d. Qed.

(** On a latched device the call returns 0 and nothing changes. *)
Lemma set_cur_state_stopped w state :
  stop_flag (dev w) <> 0 -> gpucore_set_cur_state state w = (0, w).
Proof.
  intros Hs. run_callback. apply Z.eqb_neq in Hs. now rewrite Hs.
Qed.

(** On a device that is not latched the call records the requested state,
    latches if asked to, and calls the hook once. *)
Lemma set_cur_state_active w state :
  stop_flag (dev w) = 0 ->
  gpucore_set_cur_state state w =
    (0, {| dev := with_gpucore_state (to_uint (requested state))
                    (with_stop_flag
                       (if Z.land state GPU_STOP =? GPU_STOP then 1 else 0)
                       (dev w));
           pp_calls := pp_calls w ++
             [to_uint (max_gpu_core_num (dev w) - requested state)] |}).
Proof using long_bits.
  intros Hs. unfold requested. run_callback. rewrite Hs. cbn.
  destruct (Z.land state GPU_STOP =? GPU_STOP); cbn;
    rewrite hook_arg; [reflexivity |].
  now rewrite <- Hs, with_stop_flag_id.
Qed.

Lemma set_cur_state_returns_0 w state : (gpucore_set_cur_state state w).1 = 0.
Proof.
  run_callback.
  destruct (stop_flag (dev w) =? 0); cbn; [| reflexivity].
  destruct (Z.land state GPU_STOP =? GPU_STOP); reflexivity.
Qed.

Lemma set_cur_state_keeps_max w state :
  max_gpu_core_num (dev (gpucore_set_cur_state state w).2)
  = max_gpu_core_num (dev w).
Proof.
  run_callback.
  destruct (stop_flag (dev w) =? 0); cbn; [| reflexivity].
  destruct (Z.land state GPU_STOP =? GPU_STOP); reflexivity.
Qed.

Lemma requests_cons state l w :
  requests (state :: l) w =
    (let (r, w1) := gpucore_set_cur_state state w in
     let (rs, w2) := requests l w1 in (r :: rs, w2)).
Proof.
  cbn [requests]. unfold mbind, M_bind, mret, M_ret.
  destruct (gpucore_set_cur_state state w) as [r w1].
  destruct (requests l w1); reflexivity.
Qed.

Lemma requests_keep_max l w :
  max_gpu_core_num (dev (requests l w).2) = max_gpu_core_num (dev w).
Proof.
  revert w. induction l as [| state l IH]; intros w; [reflexivity |].
  rewrite requests_cons.
  pose proof (set_cur_state_keeps_max w state) as Hk.
  destruct (gpucore_set_cur_state state w) as [r w1]. cbn in Hk.
  specialize (IH w1). destruct (requests l w1) as [rs w2]. cbn in *.
  congruence.
Qed.

Lemma requests_stopped l w :
  stop_flag (dev w) <> 0 ->
  requests l w = (replicate (length l) 0, w).
Proof.
  intros Hs. induction l as [| state l IH]; [reflexivity |].
  rewrite requests_cons, set_cur_state_stopped, IH by assumption.
  reflexivity.
Qed.

(** A request within range on a device within range leaves it within
    range. *)
Lemma set_cur_state_in_bounds w state :
  max_gpu_core_num (dev w) <= INT_MAX ->
  0 <= gpucore_state (dev w) <= max_gpu_core_num (dev w) ->
  0 <= requested state <= max_gpu_core_num (dev w) ->
  0 <= gpucore_state (dev (gpucore_set_cur_state state w).2)
    <= max_gpu_core_num (dev w).
Proof using long_bits.
  intros Hm Hd Hr.
  destruct (Z.eq_dec (stop_flag (dev w)) 0) as [Hs | Hs].
  - rewrite set_cur_state_active by assumption. cbn.
    rewrite to_uint_small; unfold INT_MAX in *; lia.
  - now rewrite set_cur_state_stopped.
Qed.

Lemma requests_in_bounds l w :
  max_gpu_core_num (dev w) <= INT_MAX ->
  0 <= gpucore_state (dev w) <= max_gpu_core_num (dev w) ->
  Forall (fun state => 0 <= requested state <= max_gpu_core_num (dev w)) l ->
  0 <= gpucore_state (dev (requests l w).2) <= max_gpu_core_num (dev w).
Proof using long_bits.
  intros Hm Hd Hl. revert w Hm Hd Hl.
  induction l as [| state l IH]; intros w Hm Hd Hl; [exact Hd |].
  apply Forall_cons in Hl as [Hr Hl].
  rewrite requests_cons.
  pose proof (set_cur_state_in_bounds w state Hm Hd Hr) as Hb.
  pose proof (set_cur_state_keeps_max w state) as Hk.
  destruct (gpucore_set_cur_state state w) as [r w1]. cbn in Hb, Hk.
  specialize (IH w1). rewrite Hk in IH.
  destruct (requests l w1) as [rs w2]. cbn in *.
  apply IH; assumption.
Qed.

(** ** The id allocator *)

Lemma first_unused_spec (used : gset Z) (fuel : nat) (from : Z) :
  (size (filter (fun x : Z => (from <= x)%Z) used) <= fuel)%nat ->
  let n := first_unused used from fuel in
  from <= n /\ (n ∉ used) /\ (forall j, from <= j < n -> j ∈ used).
Proof.
  revert from. induction fuel as [| fuel IH]; intros from Hsize; cbn.
  - assert (He : filter (fun x => from <= x) used ≡ ∅)
      by (apply size_empty_inv; lia).
    repeat split; [lia | | lia].
    intros Hin. apply (not_elem_of_empty (C := gset Z) from), He.
    apply elem_of_filter. split; [lia | done].
  - destruct (decide (from ∈ used)) as [Hin | Hout].
    + destruct (IH (from + 1)) as (Hle & Hn & Hbelow).
      { assert (Hlt : filter (fun x => from + 1 <= x) used
                        ⊂ filter (fun x => from <= x) used).
        { split.
          - intros x [Hx ?]%elem_of_filter. apply elem_of_filter.
            split; [lia | done].
          - intros Hsub. specialize (Hsub from).
            rewrite !elem_of_filter in Hsub.
            destruct Hsub as [? _]; [split; [lia | done] | lia]. }
        apply subset_size in Hlt. lia. }
      repeat split; [lia | done |].
      intros j Hj. destruct (decide (j = from)) as [-> | Hne]; [done |].
      apply Hbelow. lia.
    + repeat split; [lia | done | lia].
Qed.

(** The id handed out is the smallest non-negative integer not in use. *)
Lemma smallest_unused_spec (used : gset Z) :
  let n := smallest_unused used in
  0 <= n /\ (n ∉ used) /\ (forall j, 0 <= j < n -> j ∈ used).
Proof.
  apply first_unused_spec. apply subseteq_size.
  intros x [_ Hx]%elem_of_filter. exact Hx.
Qed.

Lemma first_unused_bound (used : gset Z) (fuel : nat) (from : Z) :
  first_unused used from fuel <= from + Z.of_nat fuel.
Proof.
  revert from. induction fuel as [| fuel IH]; intros from; cbn [first_unused].
  - lia.
  - destruct (decide (from ∈ used)); [specialize (IH (from + 1)) |]; lia.
Qed.

Lemma smallest_unused_bound (used : gset Z) :
  smallest_unused used <= Z.of_nat (size used).
Proof. apply (first_unused_bound used (size used) 0). Qed.

(** ** Running kernel code *)

Ltac kernel_simpl :=
  repeat first
    [ progress
        cbn [gpucore_idr kmem thermal_cdevs hw_calls option_bind negb fst snd
             id cool_dev gpucore_state max_gpu_core_num stop_flag
             with_id with_cool_dev with_gpucore_state with_max_gpu_core_num
             with_stop_flag]
    | progress change (0 =? 0) with true ].

Ltac run_kernel :=
  unfold gpucore_cooling_register, gpucore_cooling_unregister,
    gpucore_cooling_alloc, bring_up, setup, get_idr, release_idr, idr_alloc,
    idr_remove, thermal_cooling_device_register,
    thermal_cooling_device_unregister, devdata, kzalloc, kfree, store, load;
  unfold mbind, K_bind, mret, K_ret, with_idr, with_kmem, with_cdevs;
  kernel_simpl.

Lemma kernel_eta k :
  {| gpucore_idr := gpucore_idr k; kmem := kmem k;
     thermal_cdevs := thermal_cdevs k; hw_calls := hw_calls k |} = k.
Proof. now destruct k. Qed.

Lemma ERR_PTR_nonzero e : 0 < e < 2 ^ 32 -> ERR_PTR (- e) <> 0.
Proof using long_bits.
  intros He. unfold ERR_PTR, to_ulong.
  assert (2 ^ 32 <= 2 ^ BITS_PER_LONG) by (apply Z.pow_le_mono_r; lia).
  replace (- e) with (2 ^ BITS_PER_LONG - e + (-1) * 2 ^ BITS_PER_LONG)
    by lia.
  rewrite Z.mod_add, Z.mod_small by lia. lia.
Qed.

(** get_idr fails, with a negative code and no effect, when the idr has no
    memory or no id left. *)
Lemma get_idr_failure mem_ok p k :
  mem_ok = false \/ INT_MAX < smallest_unused (gpucore_idr k) ->
  exists e, e < 0 /\ get_idr mem_ok p k = Some (e, k).
Proof.
  intros Hf. run_kernel. destruct mem_ok; cbn.
  - destruct Hf as [Hf | Hf]; [discriminate |].
    apply Z.ltb_lt in Hf. rewrite Hf.
    exists (- ENOSPC). split; [reflexivity | reflexivity].
  - exists (- ENOMEM). split; reflexivity.
Qed.

(** Otherwise it returns 0, the smallest unused id is marked used and
    stored through the pointer. *)
Lemma get_idr_success p k d :
  kmem k !! p = Some d ->
  smallest_unused (gpucore_idr k) <= INT_MAX ->
  let n := smallest_unused (gpucore_idr k) in
  get_idr true p k =
    Some (0, {| gpucore_idr := {[n]} ∪ gpucore_idr k;
                kmem := <[p := with_id n d]> (kmem k);
                thermal_cdevs := thermal_cdevs k;
                hw_calls := hw_calls k |}).
Proof.
  intros Hp Hn n. run_kernel.
  assert (Hlt : (INT_MAX <? smallest_unused (gpucore_idr k)) = false)
    by (apply Z.ltb_ge; exact Hn).
  rewrite Hlt. cbn.
  destruct (smallest_unused_spec (gpucore_idr k)) as [H0 _].
  assert (Hneg : (smallest_unused (gpucore_idr k) <? 0) = false)
    by (apply Z.ltb_ge; exact H0).
  rewrite Hneg. cbn. rewrite Hp. reflexivity.
Qed.

(** ** Registration *)

Lemma eqb_0_false p : p <> 0 -> (p =? 0) = false.
Proof. apply Z.eqb_neq. Qed.

(** The three ways gpucore_cooling_register ends. *)
Lemma register_no_id mem_ok c p k d :
  p <> 0 ->
  kmem k !! p = Some d ->
  mem_ok = false \/ INT_MAX < smallest_unused (gpucore_idr k) ->
  gpucore_cooling_register mem_ok c p k
    = Some (ERR_PTR (- EINVAL), without_dev p k).
Proof.
  intros Hnull Hp Hf.
  destruct (get_idr_failure mem_ok p k Hf) as (e & He & Hg).
  unfold gpucore_cooling_register. unfold mbind at 1, K_bind at 1.
  rewrite Hg. assert (Hz : (e =? 0) = false) by (apply Z.eqb_neq; lia).
  rewrite Hz. run_kernel.
  rewrite (eqb_0_false p Hnull). kernel_simpl. rewrite Hp. reflexivity.
Qed.

Lemma register_rejected p k d :
  p <> 0 ->
  kmem k !! p = Some d ->
  smallest_unused (gpucore_idr k) <= INT_MAX ->
  gpucore_cooling_register true 0 p k
    = Some (ERR_PTR (- EINVAL), without_dev p k).
Proof.
  intros Hnull Hp Hn.
  unfold gpucore_cooling_register. unfold mbind at 1, K_bind at 1.
  rewrite (get_idr_success p k d Hp Hn). run_kernel.
  rewrite lookup_insert_eq. kernel_simpl. rewrite (eqb_0_false p Hnull).
  kernel_simpl. rewrite lookup_insert_eq. kernel_simpl.
  unfold without_dev. f_equal. f_equal.
  destruct (smallest_unused_spec (gpucore_idr k)) as (_ & Hfresh & _).
  f_equal.
  - apply set_eq. intros x.
    rewrite elem_of_difference, elem_of_union, elem_of_singleton.
    split; [tauto | intros Hx; split; [tauto | congruence]].
  - apply delete_insert_eq.
Qed.

Lemma register_accepted c p k d :
  c <> 0 ->
  kmem k !! p = Some d ->
  smallest_unused (gpucore_idr k) <= INT_MAX ->
  let n := smallest_unused (gpucore_idr k) in
  gpucore_cooling_register true c p k
    = Some (0, {| gpucore_idr := {[n]} ∪ gpucore_idr k;
                  kmem := <[p := with_gpucore_state 0
                                   (with_cool_dev c (with_id n d))]> (kmem k);
                  thermal_cdevs := <[c := p]> (thermal_cdevs k);
                  hw_calls := hw_calls k |}).
Proof.
  intros Hc Hp Hn n.
  unfold gpucore_cooling_register. unfold mbind at 1, K_bind at 1.
  rewrite (get_idr_success p k d Hp Hn). run_kernel.
  rewrite (eqb_0_false c Hc). kernel_simpl. rewrite (eqb_0_false c Hc).
  kernel_simpl. rewrite lookup_insert_eq. kernel_simpl.
  rewrite lookup_insert_eq. kernel_simpl.
  rewrite !insert_insert_eq. reflexivity.
Qed.

Lemma without_dev_absent p k : kmem k !! p = None -> without_dev p k = k.
Proof.
  intros Hp. unfold without_dev. rewrite delete_id by exact Hp.
  apply kernel_eta.
Qed.

(** Registering goes wrong on a pointer that leads nowhere, except for NULL
    when no id could be had (nothing is then read or freed). *)
Lemma register_invalid mem_ok c p k :
  kmem k !! p = None ->
  gpucore_cooling_register mem_ok c p k =
    if (p =? 0) && (negb mem_ok || (INT_MAX <? smallest_unused (gpucore_idr k)))
    then Some (ERR_PTR (- EINVAL), k) else None.
Proof.
  intros Hp. run_kernel.
  destruct mem_ok; kernel_simpl.
  - destruct (INT_MAX <? smallest_unused (gpucore_idr k)) eqn:Hlt;
      kernel_simpl.
    + change (- ENOSPC <? 0) with true. kernel_simpl.
      change (- ENOSPC =? 0) with false. kernel_simpl.
      destruct (p =? 0); kernel_simpl; [reflexivity | now rewrite Hp].
    + destruct (smallest_unused_spec (gpucore_idr k)) as [H0 _].
      apply Z.ltb_ge in H0. rewrite H0. kernel_simpl. rewrite Hp.
      kernel_simpl. now rewrite andb_false_r.
  - change (- ENOMEM <? 0) with true. kernel_simpl.
    change (- ENOMEM =? 0) with false. kernel_simpl.
    destruct (p =? 0); kernel_simpl; [reflexivity | now rewrite Hp].
Qed.

(** However registration ends, it ends in one of two ways. *)
Lemma register_cases mem_ok c p k r k' :
  kmem k !! 0 = None ->
  gpucore_cooling_register mem_ok c p k = Some (r, k') ->
  (r = ERR_PTR (- EINVAL) /\ k' = without_dev p k) \/
  (r = 0 /\ c <> 0 /\ mem_ok = true /\
   smallest_unused (gpucore_idr k) <= INT_MAX /\
   exists d, kmem k !! p = Some d /\
     k' = {| gpucore_idr := {[smallest_unused (gpucore_idr k)]}
                              ∪ gpucore_idr k;
             kmem := <[p := with_gpucore_state 0
                              (with_cool_dev c
                                 (with_id (smallest_unused (gpucore_idr k))
                                    d))]> (kmem k);
             thermal_cdevs := <[c := p]> (thermal_cdevs k);
             hw_calls := hw_calls k |}).
Proof.
  intros Hnull Hreg.
  destruct (kmem k !! p) as [d |] eqn:Hp.
  - assert (p <> 0) by congruence.
    destruct mem_ok;
      [destruct (Z_le_gt_dec (smallest_unused (gpucore_idr k)) INT_MAX)
         as [Hn | Hn] |].
    + destruct (Z.eq_dec c 0) as [-> | Hc].
      * rewrite (register_rejected p k d) in Hreg by assumption.
        left. now inversion Hreg.
      * rewrite (register_accepted c p k d) in Hreg by assumption.
        right. inversion Hreg. repeat split; try assumption.
        exists d. split; reflexivity.
    + rewrite (register_no_id true c p k d) in Hreg
        by (try assumption; right; lia).
      left. now inversion Hreg.
    + rewrite (register_no_id false c p k d) in Hreg
        by (try assumption; now left).
      left. now inversion Hreg.
  - rewrite register_invalid in Hreg by assumption.
    destruct (_ && _); [| discriminate].
    left. inversion Hreg. subst. now rewrite without_dev_absent.
Qed.

(** ** The other calls *)

Lemma alloc_cases p k r k' :
  gpucore_cooling_alloc p k = Some (r, k') ->
  (p = 0 /\ r = ERR_PTR (- ENOMEM) /\ k' = k) \/
  (p <> 0 /\ r = p /\ k' = with_dev p zeroed k).
Proof.
  run_kernel. destruct (p =? 0) eqn:Hp0; kernel_simpl.
  - intros [= <- <-]. left. apply Z.eqb_eq in Hp0. auto.
  - rewrite Hp0. kernel_simpl. rewrite lookup_insert_eq. kernel_simpl.
    intros [= <- <-]. right. apply Z.eqb_neq in Hp0.
    unfold with_dev. now rewrite insert_insert_eq.
Qed.

Lemma alloc_success p k :
  p <> 0 -> gpucore_cooling_alloc p k = Some (p, with_dev p zeroed k).
Proof.
  intros Hp. run_kernel. rewrite (eqb_0_false p Hp). kernel_simpl.
  rewrite (eqb_0_false p Hp). kernel_simpl. rewrite lookup_insert_eq.
  kernel_simpl. unfold with_dev. now rewrite insert_insert_eq.
Qed.

Lemma store_success p f k d :
  kmem k !! p = Some d -> store p f k = Some (tt, with_dev p (f d) k).
Proof. intros Hp. run_kernel. now rewrite Hp. Qed.

Lemma store_cases p f k k' :
  store p f k = Some (tt, k') ->
  exists d, kmem k !! p = Some d /\ k' = with_dev p (f d) k.
Proof.
  run_kernel. destruct (kmem k !! p) as [d |]; kernel_simpl; [| discriminate].
  intros [= <-]. now exists d.
Qed.

Lemma unregister_cases cdev k k' :
  kmem k !! 0 = None ->
  gpucore_cooling_unregister cdev k = Some (tt, k') ->
  (cdev = 0 /\ k' = k) \/
  (exists p d, thermal_cdevs k !! cdev = Some p /\ kmem k !! p = Some d /\
     k' = {| gpucore_idr := gpucore_idr k ∖ {[id d]};
             kmem := delete p (kmem k);
             thermal_cdevs := delete (cool_dev d) (thermal_cdevs k);
             hw_calls := hw_calls k |}).
Proof.
  intros Hnull. run_kernel. destruct (cdev =? 0) eqn:Hc; kernel_simpl.
  - intros [= <-]. left. apply Z.eqb_eq in Hc. auto.
  - destruct (thermal_cdevs k !! cdev) as [p |] eqn:Hcdev; kernel_simpl;
      [| discriminate].
    destruct (kmem k !! p) as [d |] eqn:Hp; kernel_simpl; [| discriminate].
    assert (Hp0 : p <> 0) by congruence.
    rewrite (eqb_0_false p Hp0). kernel_simpl. rewrite Hp. kernel_simpl.
    intros [= <-]. right. exists p, d. auto.
Qed.

Lemma cdev_call_cases {A} cdev (op : M A) k r k' :
  cdev_call cdev op k = Some (r, k') ->
  exists p d, thermal_cdevs k !! cdev = Some p /\ kmem k !! p = Some d /\
    let w := {| dev := d; pp_calls := hw_calls k |} in
    r = (op w).1 /\
    k' = {| gpucore_idr := gpucore_idr k;
            kmem := <[p := dev (op w).2]> (kmem k);
            thermal_cdevs := thermal_cdevs k;
            hw_calls := pp_calls (op w).2 |}.
Proof.
  unfold cdev_call. unfold mbind.
  destruct (thermal_cdevs k !! cdev) as [p |] eqn:Hcdev; kernel_simpl;
    [| discriminate].
  destruct (kmem k !! p) as [d |] eqn:Hp; kernel_simpl; [| discriminate].
  destruct (op _) as [a w] eqn:Hop. intros [= <- <-].
  exists p, d. rewrite Hop. auto.
Qed.

Lemma set_cur_state_keeps_identity w state :
  id (dev (gpucore_set_cur_state state w).2) = id (dev w) /\
  cool_dev (dev (gpucore_set_cur_state state w).2) = cool_dev (dev w).
Proof.
  run_callback.
  destruct (stop_flag (dev w) =? 0); cbn; [| auto].
  destruct (Z.land state GPU_STOP =? GPU_STOP); auto.
Qed.

(** ** The invariant *)

Lemma boot_consistent : consistent boot.
Proof.
  unfold consistent, boot, live, registered. cbn. repeat split.
  - intros c p Hc. now rewrite lookup_empty in Hc.
  - intros p1 p2 d1 d2 [Hp _]. now rewrite lookup_empty in Hp.
Qed.

(** Writing to a structure that is not registered. *)
Lemma consistent_with_dev p d k :
  consistent k -> p <> 0 -> ~ registered k p -> consistent (with_dev p d k).
Proof.
  intros (Hnull & Hreg & Huniq) Hp0 Hfree.
  assert (Hother : forall c q, thermal_cdevs k !! c = Some q -> q <> p)
    by (intros c q Hc ->; apply Hfree; now exists c).
  unfold consistent, live, registered, with_dev. cbn. repeat split.
  - now rewrite lookup_insert_ne.
  - intros c q Hc. rewrite lookup_insert_ne by (symmetry; eauto). eauto.
  - intros p1 p2 d1 d2 [Hd1 [c1 Hc1]] [Hd2 [c2 Hc2]] Hid.
    rewrite lookup_insert_ne in Hd1 by (symmetry; eauto).
    rewrite lookup_insert_ne in Hd2 by (symmetry; eauto).
    apply (Huniq p1 p2 d1 d2); unfold live, registered; eauto.
Qed.

(** Freeing a structure that is not registered. *)
Lemma consistent_without_dev p k :
  consistent k -> ~ registered k p -> consistent (without_dev p k).
Proof.
  intros (Hnull & Hreg & Huniq) Hfree.
  assert (Hother : forall c q, thermal_cdevs k !! c = Some q -> q <> p)
    by (intros c q Hc ->; apply Hfree; now exists c).
  unfold consistent, live, registered, without_dev. cbn. repeat split.
  - rewrite lookup_delete. case_decide; [reflexivity | assumption].
  - intros c q Hc. rewrite lookup_delete_ne by (symmetry; eauto). eauto.
  - intros p1 p2 d1 d2 [Hd1 [c1 Hc1]] [Hd2 [c2 Hc2]] Hid.
    rewrite lookup_delete_ne in Hd1 by (symmetry; eauto).
    rewrite lookup_delete_ne in Hd2 by (symmetry; eauto).
    apply (Huniq p1 p2 d1 d2); unfold live, registered; eauto.
Qed.

(** A registration that succeeds. *)
Lemma consistent_registered c p d k :
  consistent k -> ~ registered k p -> thermal_cdevs k !! c = None ->
  kmem k !! p = Some d ->
  let n := smallest_unused (gpucore_idr k) in
  consistent
    {| gpucore_idr := {[n]} ∪ gpucore_idr k;
       kmem := <[p := with_gpucore_state 0 (with_cool_dev c (with_id n d))]>
                 (kmem k);
       thermal_cdevs := <[c := p]> (thermal_cdevs k);
       hw_calls := hw_calls k |}.
Proof.
  intros (Hnull & Hreg & Huniq) Hfree Hc Hp n.
  assert (Hother : forall c' q, thermal_cdevs k !! c' = Some q -> q <> p)
    by (intros c' q Hc' ->; apply Hfree; now exists c').
  assert (Hp0 : p <> 0) by congruence.
  destruct (smallest_unused_spec (gpucore_idr k)) as (_ & Hfresh & _).
  fold n in Hfresh.
  assert (Hold : forall q dq, q <> p -> kmem k !! q = Some dq ->
                   registered k q -> id dq <> n).
  { intros q dq Hq Hdq [cq Hcq] Hid.
    destruct (Hreg cq q Hcq) as (d' & Hd' & _ & Hin).
    rewrite Hdq in Hd'. injection Hd' as <-. congruence. }
  assert (Hregd : forall q, q <> p ->
            (exists c', <[c := p]> (thermal_cdevs k) !! c' = Some q) ->
            registered k q).
  { intros q Hq [c' Hc']. apply lookup_insert_Some in Hc' as [[_ ?] | [_ ?]];
      [congruence | now exists c']. }
  unfold consistent, live, registered. cbn. repeat split.
  - now rewrite lookup_insert_ne.
  - intros c' q Hc'. apply lookup_insert_Some in Hc' as [[<- <-] | [Hne Hc']].
    + rewrite lookup_insert_eq. eexists. split; [reflexivity |].
      cbn. split; [reflexivity |]. apply elem_of_union_l.
      now apply elem_of_singleton.
    + rewrite lookup_insert_ne by (symmetry; eauto).
      destruct (Hreg c' q Hc') as (d' & ? & ? & ?).
      exists d'. repeat split; try assumption. now apply elem_of_union_r.
  - intros p1 p2 d1 d2 [Hd1 Hr1] [Hd2 Hr2] Hid.
    destruct (decide (p1 = p)) as [-> | Hn1];
      destruct (decide (p2 = p)) as [-> | Hn2]; try reflexivity.
    + rewrite lookup_insert_eq in Hd1. injection Hd1 as <-. cbn in Hid.
      rewrite lookup_insert_ne in Hd2 by congruence.
      exfalso. apply (Hold p2 d2); auto.
    + rewrite lookup_insert_eq in Hd2. injection Hd2 as <-. cbn in Hid.
      rewrite lookup_insert_ne in Hd1 by congruence.
      exfalso. apply (Hold p1 d1); auto.
    + rewrite lookup_insert_ne in Hd1 by congruence.
      rewrite lookup_insert_ne in Hd2 by congruence.
      apply (Huniq p1 p2 d1 d2); unfold live; auto.
Qed.

(** Unregistering a cooling device. *)
Lemma consistent_unregistered cdev p d k :
  consistent k -> thermal_cdevs k !! cdev = Some p -> kmem k !! p = Some d ->
  consistent
    {| gpucore_idr := gpucore_idr k ∖ {[id d]};
       kmem := delete p (kmem k);
       thermal_cdevs := delete (cool_dev d) (thermal_cdevs k);
       hw_calls := hw_calls k |}.
Proof.
  intros (Hnull & Hreg & Huniq) Hcdev Hp.
  assert (Hback : cool_dev d = cdev).
  { destruct (Hreg cdev p Hcdev) as (d' & Hd' & ? & _). congruence. }
  rewrite Hback.
  assert (Hother : forall c q, delete cdev (thermal_cdevs k) !! c = Some q ->
            thermal_cdevs k !! c = Some q /\ q <> p).
  { intros c q [Hne Hc]%lookup_delete_Some. split; [assumption |].
    intros ->. destruct (Hreg c p Hc) as (d' & Hd' & ? & _). congruence. }
  unfold consistent, live, registered. cbn. repeat split.
  - rewrite lookup_delete. case_decide; [reflexivity | assumption].
  - intros c q Hc. destruct (Hother c q Hc) as [Hc' Hq].
    rewrite lookup_delete_ne by congruence.
    destruct (Hreg c q Hc') as (d' & Hd' & ? & Hin).
    exists d'. repeat split; try assumption.
    apply elem_of_difference. split; [assumption |].
    rewrite elem_of_singleton. intros Hid. apply Hq.
    apply (Huniq q p d' d); unfold live, registered; eauto.
  - intros p1 p2 d1 d2 [Hd1 [c1 Hc1]] [Hd2 [c2 Hc2]] Hid.
    destruct (Hother c1 p1 Hc1) as [Hc1' Hq1].
    destruct (Hother c2 p2 Hc2) as [Hc2' Hq2].
    rewrite lookup_delete_ne in Hd1 by congruence.
    rewrite lookup_delete_ne in Hd2 by congruence.
    apply (Huniq p1 p2 d1 d2); unfold live, registered; eauto.
Qed.

(** A callback that leaves the id and the handle of the device alone. *)
Lemma consistent_updated p d d' k hw :
  consistent k -> kmem k !! p = Some d ->
  id d' = id d -> cool_dev d' = cool_dev d ->
  consistent
    {| gpucore_idr := gpucore_idr k; kmem := <[p := d']> (kmem k);
       thermal_cdevs := thermal_cdevs k; hw_calls := hw |}.
Proof.
  intros (Hnull & Hreg & Huniq) Hp Hid Hcd.
  assert (Hp0 : p <> 0) by congruence.
  assert (Hsame : forall q dq, <[p := d']> (kmem k) !! q = Some dq ->
            exists dq0, kmem k !! q = Some dq0 /\ id dq = id dq0 /\
                        cool_dev dq = cool_dev dq0).
  { intros q dq [[<- <-] | [_ Hq]]%lookup_insert_Some; eauto. }
  unfold consistent, live, registered. cbn. repeat split.
  - now rewrite lookup_insert_ne.
  - intros c q Hc. destruct (Hreg c q Hc) as (dq & Hdq & Hcq & Hin).
    destruct (decide (q = p)) as [-> | Hne].
    + rewrite lookup_insert_eq. exists d'.
      assert (dq = d) by congruence. subst dq.
      repeat split; congruence.
    + rewrite lookup_insert_ne by congruence. eauto.
  - intros p1 p2 d1 d2 [Hd1 Hr1] [Hd2 Hr2] Hids.
    destruct (Hsame p1 d1 Hd1) as (e1 & He1 & Hi1 & _).
    destruct (Hsame p2 d2 Hd2) as (e2 & He2 & Hi2 & _).
    apply (Huniq p1 p2 e1 e2); unfold live; auto. congruence.
Qed.

(** Every call of the users keeps the invariant. *)
Lemma step_consistent k k' : step k k' -> consistent k -> consistent k'.
Proof.
  intros Hstep Hk. pose proof Hk as (Hnull & Hreg & _).
  destruct Hstep as [p r k k' Hp Hcall | p f k k' Hfree Hcall
                    | mem_ok c p r k k' Hfree Hc Hcall
                    | cdev k k' Hcall | cdev state r k k' Hcall].
  - apply alloc_cases in Hcall as [(_ & _ & ->) | (Hp0 & _ & ->)];
      [assumption |].
    apply consistent_with_dev; [assumption .. |].
    intros [c Hc]. destruct (Hreg c p Hc) as (d & Hd & _). congruence.
  - apply store_cases in Hcall as (d & Hd & ->).
    apply consistent_with_dev; [assumption | congruence | assumption].
  - apply register_cases in Hcall
      as [(_ & ->) | (_ & _ & _ & _ & d & Hd & ->)]; [| | assumption].
    + now apply consistent_without_dev.
    + now apply consistent_registered.
  - apply unregister_cases in Hcall
      as [(_ & ->) | (p & d & Hc & Hd & ->)]; [assumption | | assumption].
    now apply (consistent_unregistered cdev).
  - apply cdev_call_cases in Hcall as (p & d & Hc & Hd & _ & ->).
    apply (consistent_updated p d); [assumption .. | |];
      apply set_cur_state_keeps_identity.
Qed.

Lemma reachable_consistent k : reachable k -> consistent k.
Proof.
  unfold reachable. revert k. apply (rtc_ind_r consistent boot).
  - apply boot_consistent.
  - intros k k' _ Hstep Hk. now apply (step_consistent k).
Qed.

(** Whether a structure is registered can be checked by going through
    the cooling devices. *)
Lemma not_registered_check k p :
  bool_decide (map_Forall (fun _ q => q <> p) (thermal_cdevs k)) = true ->
  ~ registered k p.
Proof.
  intros Hall%bool_decide_eq_true [c Hc]. now apply (Hall c p Hc).
Qed.

(** What one call of the users does to a controller that is live before
    and after it: nothing, or what a request does. *)
Lemma step_live k k' p d d' :
  consistent k -> step k k' -> live k p d -> live k' p d' ->
  d' = d \/
  exists state,
    d' = dev (gpucore_set_cur_state state
                {| dev := d; pp_calls := hw_calls k |}).2.
Proof.
  intros (Hnull & _ & _) Hstep [Hd Hreg] [Hd' _].
  destruct Hstep as [q r k k' Hq Hcall | q f k k' Hfree Hcall
                    | mem_ok c q r k k' Hfree Hc Hcall
                    | cdev k k' Hcall | cdev state r k k' Hcall].
  - apply alloc_cases in Hcall as [(_ & _ & ->) | (_ & _ & ->)];
      [left; congruence |].
    cbn in Hd'. rewrite lookup_insert_ne in Hd' by congruence.
    left. congruence.
  - apply store_cases in Hcall as (dq & Hdq & ->).
    cbn in Hd'. rewrite lookup_insert_ne in Hd' by congruence.
    left. congruence.
  - apply register_cases in Hcall
      as [(_ & ->) | (_ & _ & _ & _ & dq & Hdq & ->)]; [| | assumption].
    + cbn in Hd'. rewrite lookup_delete_ne in Hd' by congruence.
      left. congruence.
    + cbn in Hd'. rewrite lookup_insert_ne in Hd' by congruence.
      left. congruence.
  - apply unregister_cases in Hcall
      as [(_ & ->) | (q & dq & Hc & Hdq & ->)]; [| | assumption].
    + left. congruence.
    + cbn in Hd'. apply lookup_delete_Some in Hd' as [_ Hd'].
      left. congruence.
  - apply cdev_call_cases in Hcall as (q & dq & Hc & Hdq & _ & ->).
    cbn in Hd'. apply lookup_insert_Some in Hd' as [[-> <-] | [_ Hd']].
    + right. exists state. congruence.
    + left. congruence.
Qed.

(** A latched controller stays as it is, and the core count of a controller
    stays what it is, for as long as the controller lives. *)
Lemma step_latched k k' p d d' :
  consistent k -> step k k' -> live k p d -> live k' p d' ->
  stop_flag d <> 0 -> d' = d.
Proof.
  intros Hk Hstep Hd Hd' Hs.
  destruct (step_live k k' p d d' Hk Hstep Hd Hd') as [| [state ->]];
    [assumption |].
  now rewrite set_cur_state_stopped.
Qed.

Lemma step_keeps_max k k' p d d' :
  consistent k -> step k k' -> live k p d -> live k' p d' ->
  max_gpu_core_num d' = max_gpu_core_num d.
Proof.
  intros Hk Hstep Hd Hd'.
  destruct (step_live k k' p d d' Hk Hstep Hd Hd') as [-> | [state ->]];
    [reflexivity |].
  apply set_cur_state_keeps_max.
Qed.

(** ** Allocating and releasing ids *)

Lemma release_ids_spec (l : list Z) k :
  release_ids l k =
    Some (tt, {| gpucore_idr := gpucore_idr k ∖ list_to_set l;
                 kmem := kmem k; thermal_cdevs := thermal_cdevs k;
                 hw_calls := hw_calls k |}).
Proof.
  revert k. induction l as [| n l IH]; intros k.
  - cbn. unfold mret, K_ret. do 2 f_equal.
    rewrite <- (kernel_eta k) at 1. f_equal.
    apply set_eq. intros x. rewrite elem_of_difference, elem_of_empty. tauto.
  - cbn [release_ids list_to_set]. run_kernel. rewrite IH. kernel_simpl.
    do 3 f_equal. apply set_eq. intros x.
    rewrite !elem_of_difference, elem_of_union. tauto.
Qed.

Lemma allocate_ids_spec (n : nat) p k d :
  kmem k !! p = Some d ->
  Z.of_nat (size (gpucore_idr k)) + Z.of_nat n <= INT_MAX ->
  exists ids k1 d1,
    allocate_ids n p k = Some (ids, k1) /\
    length ids = n /\ NoDup ids /\
    (forall v, v ∈ ids -> v ∉ gpucore_idr k) /\
    gpucore_idr k1 = list_to_set ids ∪ gpucore_idr k /\
    kmem k1 !! p = Some d1.
Proof.
  clear long_bits.
  revert k d. induction n as [| n IH]; intros k d Hp Hsize.
  - exists [], k, d. cbn. repeat split; try assumption.
    + constructor.
    + intros v Hv. now apply elem_of_nil in Hv.
    + apply set_eq. intros x. rewrite elem_of_union, elem_of_empty. tauto.
  - pose proof (smallest_unused_bound (gpucore_idr k)) as Hb.
    destruct (smallest_unused_spec (gpucore_idr k)) as (_ & Hfresh & _).
    set (m := smallest_unused (gpucore_idr k)) in *.
    assert (Hm : m <= INT_MAX) by lia.
    pose proof (get_idr_success p k d Hp Hm) as Hget. cbn zeta in Hget.
    fold m in Hget.
    set (k' := {| gpucore_idr := {[m]} ∪ gpucore_idr k;
                  kmem := <[p := with_id m d]> (kmem k);
                  thermal_cdevs := thermal_cdevs k;
                  hw_calls := hw_calls k |}) in *.
    destruct (IH k' (with_id m d)) as (ids & k1 & d1 & Hrun & Hlen & Hnd
                                       & Hnew & Hidr & Hd1).
    { apply lookup_insert_eq. }
    { cbn [gpucore_idr k']. rewrite size_union by set_solver.
      rewrite size_singleton. lia. }
    exists (m :: ids), k1, d1.
    assert (Hmk' : m ∈ gpucore_idr k')
      by (apply elem_of_union_l; now apply elem_of_singleton).
    repeat split.
    + cbn [allocate_ids]. unfold mbind at 1, K_bind at 1. rewrite Hget.
      unfold load at 1. unfold mbind at 1, K_bind at 1.
      cbn [kmem k']. rewrite lookup_insert_eq. unfold mbind at 1.
      kernel_simpl. unfold mbind at 1, K_bind at 1. fold k'.
      rewrite Hrun. reflexivity.
    + cbn. now rewrite Hlen.
    + constructor; [| assumption]. intros Hin. now apply (Hnew m).
    + intros v [-> | Hv]%elem_of_cons; [assumption |].
      intros Hin. apply (Hnew v Hv). now apply elem_of_union_r.
    + rewrite Hidr. cbn [gpucore_idr k' list_to_set].
      apply set_eq. intros x. rewrite !elem_of_union. tauto.
    + assumption.
Qed.

(** A callback that only reads leaves the kernel as it is. *)
Lemma cdev_call_read {A} cdev (op : M A) k p d a :
  thermal_cdevs k !! cdev = Some p -> kmem k !! p = Some d ->
  (forall w, op w = (a w, w)) ->
  cdev_call cdev op k
    = Some (a {| dev := d; pp_calls := hw_calls k |}, k).
Proof.
  intros Hc Hp Hop. unfold cdev_call, mbind. rewrite Hc. kernel_simpl.
  rewrite Hp. kernel_simpl. rewrite Hop. cbn [dev pp_calls].
  rewrite insert_id by exact Hp. now rewrite kernel_eta.
Qed.

(** A call running alone goes through its three steps and does what
    gpucore_set_cur_state does. *)
Lemma call_alone state w :
  interleave [0; 0; 0]%nat [AtLock state] w
    = ([Returned (gpucore_set_cur_state state w).1],
       (gpucore_set_cur_state state w).2).
Proof.
  unfold interleave, call_step. run_callback.
  destruct (stop_flag (dev w) =? 0); cbn; [| reflexivity].
  destruct (Z.land state GPU_STOP =? GPU_STOP); reflexivity.
Qed.

(** ** The claims about the callbacks *)

(** C1: on a controller that is not stopped, a request for a state n with
    0 <= n <= maxState that does not carry the STOP flag succeeds (returns
    0), records n, so that get_cur_state then returns n, and calls the
    hardware hook exactly once, with maxState - n. *)
Theorem set_cur_state_in_range (w : world) (n : Z) :
  stop_flag (dev w) = 0 ->
  max_gpu_core_num (dev w) <= INT_MAX ->
  0 <= n <= max_gpu_core_num (dev w) ->
  ~ has_stop n ->
  let w' := {| dev := with_gpucore_state n (dev w);
               pp_calls := pp_calls w ++ [max_gpu_core_num (dev w) - n] |} in
  gpucore_set_cur_state n w = (0, w') /\
  gpucore_get_cur_state w' = ((0, n), w').
Proof using long_bits.
  intros Hs Hm Hn Hstop w'. unfold has_stop in Hstop.
  apply Z.eqb_neq in Hstop.
  assert (Hu : to_uint n = n)
    by (apply to_uint_small; unfold INT_MAX in *; lia).
  split.
  - rewrite set_cur_state_active by assumption.
    unfold requested. rewrite Hstop, Hu.
    rewrite to_uint_small by (unfold INT_MAX in *; lia).
    subst w'. now rewrite <- Hs, with_stop_flag_id.
  - run_callback. rewrite to_ulong_small by lia. reflexivity.
Qed.

(** C2: after a request that carried the STOP flag the latch is set, and
    from then on every request, whatever its argument, returns 0 and leaves
    the whole device (so also its cooling state and its latch) and the
    record of hook calls as they were; and in the kernel no call of the
    users changes a latched controller for as long as it is live. *)
Theorem stop_latch_permanent (w : world) (s : Z) (l : list Z) :
  has_stop s ->
  let w1 := (gpucore_set_cur_state s w).2 in
  stop_flag (dev w1) <> 0 /\
  requests l w1 = (replicate (length l) 0, w1) /\
  (forall k k' p d d',
     reachable k -> step k k' -> live k p d -> live k' p d' ->
     stop_flag d <> 0 -> d' = d).
Proof.
  intros Hstop w1.
  assert (Hl : stop_flag (dev w1) <> 0).
  { subst w1. unfold has_stop in Hstop. apply Z.eqb_eq in Hstop.
    run_callback. destruct (stop_flag (dev w) =? 0) eqn:Hs; cbn.
    - now rewrite Hstop.
    - now apply Z.eqb_neq. }
  split; [exact Hl |]. split; [now apply requests_stopped |].
  intros k k' p d d' Hk. apply step_latched, reachable_consistent, Hk.
Qed.

(** C3: a request with the STOP flag on a controller that is not stopped
    sets the latch, records the value with the flag taken out as the
    current state, and still calls the hook once, with maxState minus that
    value (as the unsigned int the hook takes; the very difference when the
    value is within range). *)
Theorem stop_request_latches (w : world) (s : Z) :
  stop_flag (dev w) = 0 ->
  has_stop s ->
  let s' := Z.land s (Z.lnot GPU_STOP) in
  let m := max_gpu_core_num (dev w) in
  let w' := {| dev := with_gpucore_state (to_uint s')
                        (with_stop_flag 1 (dev w));
               pp_calls := pp_calls w ++ [to_uint (m - s')] |} in
  gpucore_set_cur_state s w = (0, w') /\
  gpucore_get_cur_state w' = ((0, to_uint s'), w') /\
  Z.land s' GPU_STOP = 0 /\
  (0 <= s' <= m -> m <= INT_MAX ->
   to_uint s' = s' /\ to_uint (m - s') = m - s').
Proof using long_bits.
  intros Hs Hstop s' m w'. unfold has_stop in Hstop.
  apply Z.eqb_eq in Hstop. repeat split.
  - rewrite set_cur_state_active by assumption.
    unfold requested. now rewrite Hstop.
  - run_callback. unfold to_ulong. rewrite Z.mod_small; [reflexivity |].
    assert (2 ^ 32 <= 2 ^ BITS_PER_LONG) by (apply Z.pow_le_mono_r; lia).
    pose proof (Z.mod_pos_bound s' (2 ^ 32)). unfold to_uint. lia.
  - apply strip_clears.
  - apply to_uint_small. unfold INT_MAX in *. lia.
  - apply to_uint_small. unfold INT_MAX in *. lia.
Qed.

(** C4, as the driver has it: set_cur_state checks no range.  Every call
    returns 0, and on a controller that is not stopped the hook is called
    once with maxState minus the requested state reduced modulo 2^32: for a
    requested state above maxState (by at most 2^32) that is the difference
    plus 2^32, which lies above maxState whenever the requested state is
    below 2^32. *)
Theorem set_cur_state_unchecked (w : world) (state : Z) :
  (gpucore_set_cur_state state w).1 = 0 /\
  (stop_flag (dev w) = 0 ->
   let m := max_gpu_core_num (dev w) in
   pp_calls (gpucore_set_cur_state state w).2
     = pp_calls w ++ [to_uint (m - requested state)] /\
   gpucore_state (dev (gpucore_set_cur_state state w).2)
     = to_uint (requested state) /\
   (m < requested state <= m + 2 ^ 32 ->
    to_uint (m - requested state) = m - requested state + 2 ^ 32)).
Proof using long_bits.
  split; [apply set_cur_state_returns_0 |].
  intros Hs m. rewrite set_cur_state_active by assumption. cbn.
  repeat split. intros Hr. apply to_uint_wrap. lia.
Qed.


(** ** The claims about identities and registration *)

(** C6: when the id allocation fails (no memory, or no id left) or the
    framework rejects the binding, gpucore_cooling_register on an allocated
    structure reports the failure (it returns a pointer other than 0), the
    structure is freed and no cooling device leads to it, and the ids in
    use, the registered cooling devices and the hook calls are as before.
    When the binding is rejected the id that get_idr had marked used is free
    again, and in either case the next get_idr that succeeds issues the
    smallest id that was free before the failed registration.  A
    registration fails for these causes only. *)
Theorem register_failure_rolls_back mem_ok c p k d :
  p <> 0 ->
  kmem k !! p = Some d ->
  (mem_ok = false \/ INT_MAX < smallest_unused (gpucore_idr k) \/ c = 0 ->
   exists r k',
     gpucore_cooling_register mem_ok c p k = Some (r, k') /\
     r <> 0 /\
     kmem k' !! p = None /\
     kmem k' = delete p (kmem k) /\
     gpucore_idr k' = gpucore_idr k /\
     thermal_cdevs k' = thermal_cdevs k /\
     hw_calls k' = hw_calls k /\
     (~ registered k p -> ~ registered k' p) /\
     (mem_ok = true -> smallest_unused (gpucore_idr k) <= INT_MAX ->
      exists k1,
        get_idr mem_ok p k = Some (0, k1) /\
        smallest_unused (gpucore_idr k) ∈ gpucore_idr k1 /\
        smallest_unused (gpucore_idr k) ∉ gpucore_idr k') /\
     (forall p' d',
        kmem k' !! p' = Some d' ->
        smallest_unused (gpucore_idr k) <= INT_MAX ->
        exists k'',
          get_idr true p' k' = Some (0, k'') /\
          kmem k'' !! p'
            = Some (with_id (smallest_unused (gpucore_idr k)) d'))) /\
  (forall r k',
     gpucore_cooling_register mem_ok c p k = Some (r, k') ->
     r <> 0 ->
     mem_ok = false \/ INT_MAX < smallest_unused (gpucore_idr k) \/ c = 0).
Proof using long_bits.
  intros Hp0 Hp. split.
  - intros Hcause. exists (ERR_PTR (- EINVAL)), (without_dev p k).
    destruct (smallest_unused_spec (gpucore_idr k)) as (_ & Hfresh & _).
    split; [| split; [| split; [| split; [| split; [| split; [| split;
      [| split; [| split]]]]]]]]; try reflexivity.
    + destruct mem_ok; [| apply (register_no_id false c p k d); auto].
      destruct (Z_le_gt_dec (smallest_unused (gpucore_idr k)) INT_MAX)
        as [Hn | Hn];
        [| apply (register_no_id true c p k d); auto; right; lia].
      destruct Hcause as [Hf | [Hf | ->]]; [discriminate | lia |].
      now apply (register_rejected p k d).
    + apply ERR_PTR_nonzero. unfold EINVAL. lia.
    + apply lookup_delete_eq.
    + intros Hfree. exact Hfree.
    + intros -> Hn. eexists. split; [apply (get_idr_success p k d Hp Hn) |].
      cbn [gpucore_idr without_dev]. split; [| exact Hfresh].
      apply elem_of_union_l. now apply elem_of_singleton.
    + intros p' d' Hp' Hn. eexists. split.
      * apply (get_idr_success p' (without_dev p k) d' Hp' Hn).
      * cbn. apply lookup_insert_eq.
  - intros r k' Hreg Hr.
    destruct mem_ok; [| now left]. right.
    destruct (Z_le_gt_dec (smallest_unused (gpucore_idr k)) INT_MAX);
      [| left; lia].
    right. destruct (Z.eq_dec c 0) as [| Hc]; [assumption |].
    rewrite (register_accepted c p k d) in Hreg by assumption.
    inversion Hreg. congruence.
Qed.

(** C7: get_idr issues the smallest non-negative integer not in use and
    marks it used; after any number of allocations, releasing some of the
    ids issued makes exactly those available again, the others staying in
    use and the ids that were in use or free before staying so; and in
    every state the users of the driver can reach, two different live
    controllers hold different ids. *)
Theorem identity_allocation :
  (forall k p d,
     kmem k !! p = Some d ->
     smallest_unused (gpucore_idr k) <= INT_MAX ->
     let n := smallest_unused (gpucore_idr k) in
     exists k',
       get_idr true p k = Some (0, k') /\
       kmem k' !! p = Some (with_id n d) /\
       gpucore_idr k' = {[n]} ∪ gpucore_idr k /\
       0 <= n /\ (n ∉ gpucore_idr k) /\
       (forall j, 0 <= j < n -> j ∈ gpucore_idr k)) /\
  (forall k p d (n : nat),
     kmem k !! p = Some d ->
     Z.of_nat (size (gpucore_idr k)) + Z.of_nat n <= INT_MAX ->
     exists ids k1,
       allocate_ids n p k = Some (ids, k1) /\
       length ids = n /\ NoDup ids /\
       forall released : list Z,
         released ⊆ ids ->
         exists k2,
           release_ids released k1 = Some (tt, k2) /\
           forall v,
             (v ∈ ids -> (v ∉ gpucore_idr k2 <-> v ∈ released)) /\
             (v ∉ ids -> (v ∈ gpucore_idr k2 <-> v ∈ gpucore_idr k))) /\
  (forall k p1 p2 d1 d2,
     reachable k -> live k p1 d1 -> live k p2 d2 ->
     p1 <> p2 -> id d1 <> id d2).
Proof.
  repeat split.
  - intros k p d Hp Hn n.
    destruct (smallest_unused_spec (gpucore_idr k)) as (H0 & Hfresh & Hmin).
    eexists. split; [apply (get_idr_success p k d Hp Hn) |].
    cbn. repeat split; try assumption. apply lookup_insert_eq.
  - intros k p d n Hp Hsize.
    destruct (allocate_ids_spec n p k d Hp Hsize)
      as (ids & k1 & d1 & Hrun & Hlen & Hnd & Hnew & Hidr & _).
    exists ids, k1. repeat split; try assumption.
    intros released Hsub. eexists. split; [apply release_ids_spec |].
    cbn [gpucore_idr]. rewrite Hidr. intros v.
    rewrite elem_of_difference, elem_of_union, !elem_of_list_to_set.
    split.
    + intros Hv. split; [| tauto].
      intros Hout. destruct (decide (v ∈ released)); tauto.
    + intros Hv. split; [tauto |].
      intros Hin. split; [tauto |]. intros Hrel. apply Hv, Hsub, Hrel.
  - intros k p1 p2 d1 d2 Hk H1 H2 Hne Hid.
    apply reachable_consistent in Hk as (_ & _ & Huniq).
    apply Hne, (Huniq p1 p2 d1 d2); assumption.
Qed.

(** C8: a device that is allocated, given its core count and registered
    comes out with the latch clear and the cooling state 0, which is what
    get_cur_state returns for it; and from there every sequence of requests
    for states within 0..maxState keeps the cooling state within
    0..maxState. *)
Theorem fresh_controller_active_zero k p max c :
  p <> 0 -> c <> 0 ->
  smallest_unused (gpucore_idr k) <= INT_MAX ->
  0 <= max <= INT_MAX ->
  exists k' d,
    bring_up p max true c k = Some (0, k') /\
    kmem k' !! p = Some d /\
    stop_flag d = 0 /\ gpucore_state d = 0 /\ max_gpu_core_num d = max /\
    cdev_call c gpucore_get_cur_state k' = Some ((0, 0), k') /\
    forall l hw,
      Forall (fun state => 0 <= requested state <= max) l ->
      0 <= gpucore_state
             (dev (requests l {| dev := d; pp_calls := hw |}).2) <= max.
Proof using long_bits.
  intros Hp Hc Hn Hmax.
  set (k1 := with_dev p (with_max_gpu_core_num max zeroed) k).
  assert (Hup : bring_up p max true c k
                = gpucore_cooling_register true c p k1).
  { unfold bring_up. unfold mbind at 1, K_bind at 1.
    rewrite (alloc_success p k Hp).
    unfold mbind at 1, K_bind at 1, setup.
    rewrite (store_success p _ (with_dev p zeroed k) zeroed)
      by apply lookup_insert_eq.
    unfold k1, with_dev. cbn [gpucore_idr kmem thermal_cdevs hw_calls].
    now rewrite insert_insert_eq. }
  assert (Hk1 : kmem k1 !! p = Some (with_max_gpu_core_num max zeroed))
    by apply lookup_insert_eq.
  rewrite Hup, (register_accepted c p k1 _ Hc Hk1 Hn).
  eexists. eexists. split; [reflexivity |]. cbn [kmem thermal_cdevs].
  split; [apply lookup_insert_eq |]. repeat split.
  - erewrite cdev_call_read;
      [| apply lookup_insert_eq | apply lookup_insert_eq
       | intros w; run_callback; reflexivity].
    reflexivity.
  - pose proof (requests_in_bounds l
                  {| dev := with_gpucore_state 0
                              (with_cool_dev c
                                 (with_id (smallest_unused (gpucore_idr k1))
                                    (with_max_gpu_core_num max zeroed)));
                     pp_calls := hw |}) as Hb.
    cbn in Hb. apply Hb; [lia | lia | assumption].
  - pose proof (requests_in_bounds l
                  {| dev := with_gpucore_state 0
                              (with_cool_dev c
                                 (with_id (smallest_unused (gpucore_idr k1))
                                    (with_max_gpu_core_num max zeroed)));
                     pp_calls := hw |}) as Hb.
    cbn in Hb. apply Hb; [lia | lia | assumption].
Qed.

(** C9: get_max_state returns 0 and the core count of the device, changes
    neither the device nor the record of hook calls (nor, called through
    the framework, anything in the kernel), and gives the same answer after
    any sequence of requests; in the kernel no call of the users changes
    the core count of a controller for as long as it is live. *)
Theorem get_max_state_pure (w : world) (l : list Z) :
  gpucore_get_max_state w = ((0, to_ulong (max_gpu_core_num (dev w))), w) /\
  (0 <= max_gpu_core_num (dev w) <= INT_MAX ->
   gpucore_get_max_state w = ((0, max_gpu_core_num (dev w)), w)) /\
  (gpucore_get_max_state (requests l w).2).1 = (gpucore_get_max_state w).1 /\
  (forall k cdev p,
     thermal_cdevs k !! cdev = Some p -> kmem k !! p = Some (dev w) ->
     cdev_call cdev gpucore_get_max_state k
       = Some ((0, to_ulong (max_gpu_core_num (dev w))), k)) /\
  (forall k k' p d d',
     reachable k -> step k k' -> live k p d -> live k' p d' ->
     max_gpu_core_num d' = max_gpu_core_num d).
Proof using long_bits.
  split; [reflexivity |]. split; [| split; [| split]].
  - intros Hm. run_callback. now rewrite to_ulong_small.
  - run_callback. now rewrite requests_keep_max.
  - intros k cdev p Hc Hp.
    now rewrite (cdev_call_read cdev gpucore_get_max_state k p (dev w)
                   (fun w => (0, to_ulong (max_gpu_core_num (dev w))))).
  - intros k k' p d d' Hk. apply step_keeps_max, reachable_consistent, Hk.
Qed.

(** C10: on a structure that is allocated, gpucore_cooling_register
    returns the null pointer when it succeeds, the cooling device being
    kept in the cool_dev field only; when the id allocation fails, for lack
    of memory or of ids alike, or when the framework rejects the binding,
    it returns ERR_PTR(-EINVAL), which is not null, and the structure is
    freed. *)
Theorem register_result mem_ok c p k d :
  p <> 0 ->
  kmem k !! p = Some d ->
  (mem_ok = true -> smallest_unused (gpucore_idr k) <= INT_MAX -> c <> 0 ->
   exists k' d',
     gpucore_cooling_register mem_ok c p k = Some (0, k') /\
     kmem k' !! p = Some d' /\ cool_dev d' = c /\
     thermal_cdevs k' !! c = Some p) /\
  (mem_ok = false \/ INT_MAX < smallest_unused (gpucore_idr k) \/ c = 0 ->
   exists k',
     gpucore_cooling_register mem_ok c p k = Some (ERR_PTR (- EINVAL), k') /\
     kmem k' !! p = None) /\
  ERR_PTR (- EINVAL) = 2 ^ BITS_PER_LONG - 22 /\
  ERR_PTR (- EINVAL) <> 0.
Proof using long_bits.
  intros Hp0 Hp. repeat split.
  - intros -> Hn Hc. eexists. eexists.
    split; [apply (register_accepted c p k d Hc Hp Hn) |].
    cbn [kmem thermal_cdevs]. rewrite !lookup_insert_eq. auto.
  - intros Hfail. exists (without_dev p k).
    split; [| apply lookup_delete_eq].
    destruct mem_ok; [| apply (register_no_id false c p k d); auto].
    destruct (Z_le_gt_dec (smallest_unused (gpucore_idr k)) INT_MAX)
      as [Hn | Hn];
      [| apply (register_no_id true c p k d); auto; right; lia].
    destruct Hfail as [Hf | [Hf | ->]]; [discriminate | lia |].
    now apply (register_rejected p k d).
  - unfold ERR_PTR, to_ulong, EINVAL.
    assert (2 ^ 32 <= 2 ^ BITS_PER_LONG) by (apply Z.pow_le_mono_r; lia).
    rewrite <- (Z.mod_add _ 1) by lia. rewrite Z.mod_small; lia.
  - apply ERR_PTR_nonzero. unfold EINVAL. lia.
Qed.

(** * Further properties of the driver *)

(** ** A governor's requests, one after the other *)

Lemma with_state_flag_id d :
  stop_flag d = 0 ->
  with_gpucore_state (gpucore_state d) (with_stop_flag 0 d) = d.
Proof. destruct d. cbn. now intros ->. Qed.

(** The whole run of a list of requests on a device that is not latched. *)
Lemma requests_run l w :
  stop_flag (dev w) = 0 ->
  requests l w =
    (replicate (length l) 0,
     {| dev := with_gpucore_state
                 (from_option (fun state => to_uint (requested state))
                    (gpucore_state (dev w)) (last (served l)))
                 (with_stop_flag (if any_stop l then 1 else 0) (dev w));
        pp_calls := pp_calls w
                    ++ map (cores_for (max_gpu_core_num (dev w))) (served l)
     |}).
Proof using long_bits.
  revert w. induction l as [| state l IH]; intros w Hs.
  - cbn. unfold mret, M_ret. rewrite with_state_flag_id by assumption.
    rewrite app_nil_r. now rewrite world_eta.
  - rewrite requests_cons, set_cur_state_active by assumption.
    cbn [served any_stop existsb length replicate]. unfold requested at 1 2.
    destruct (Z.land state GPU_STOP =? GPU_STOP) eqn:Hstop.
    + rewrite requests_stopped by (cbn; discriminate).
      cbn. unfold cores_for, requested. rewrite Hstop. reflexivity.
    + rewrite IH by reflexivity. cbn [orb map dev pp_calls].
      fold (any_stop l). f_equal. f_equal.
      * destruct (dev w). unfold with_gpucore_state, with_stop_flag.
        cbn [id cool_dev gpucore_state max_gpu_core_num stop_flag]. f_equal.
        destruct (served l) as [| s1 l1] eqn:Hl.
        { cbn. unfold requested. now rewrite Hstop. }
        change (last (state :: s1 :: l1)) with (last (s1 :: l1)).
        destruct (last (s1 :: l1)) eqn:Hlast; [reflexivity |].
        now apply last_None in Hlast.
      * rewrite <- app_assoc. cbn. unfold cores_for at 2, requested.
        now rewrite Hstop.
Qed.

(** The requests served are a prefix of the requests made: all of them
    when none carries the STOP flag, else those up to the first that does. *)
Lemma served_prefix l :
  exists rest, l = served l ++ rest /\
    (any_stop l = false -> rest = []) /\
    (any_stop l = true ->
     exists before state, served l = before ++ [state] /\
       has_stop state /\ any_stop before = false).
Proof.
  induction l as [| state l (rest & Hl & Hnone & Hsome)].
  - exists []. refine (conj eq_refl (conj (fun _ => eq_refl) _)).
    discriminate.
  - cbn [served any_stop existsb].
    destruct (Z.land state GPU_STOP =? GPU_STOP) eqn:Hstop.
    + exists l. refine (conj eq_refl (conj _ _)); [discriminate |].
      intros _. exists [], state.
      refine (conj eq_refl (conj _ eq_refl)). now apply Z.eqb_eq.
    + exists rest. cbn [orb]. fold (any_stop l).
      refine (conj _ (conj Hnone _)).
      * cbn. now rewrite <- Hl.
      * intros (before & s & Hb & Hs & Hnb)%Hsome.
        exists (state :: before), s. rewrite Hb.
        refine (conj eq_refl (conj Hs _)).
        cbn. now rewrite Hstop.
Qed.

(** X1: the hook is called once for each request served, in order, with the
    cores left by that request; it is not called for a request made after
    the latch is set. *)
Theorem hook_calls_follow_requests (w : world) (l : list Z) :
  (stop_flag (dev w) <> 0 -> pp_calls (requests l w).2 = pp_calls w) /\
  (stop_flag (dev w) = 0 ->
   pp_calls (requests l w).2
     = pp_calls w ++ map (cores_for (max_gpu_core_num (dev w))) (served l)) /\
  (exists rest, l = served l ++ rest /\
     (any_stop l = false -> rest = []) /\
     (any_stop l = true ->
      exists before state, served l = before ++ [state] /\
        has_stop state /\ any_stop before = false)).
Proof using long_bits.
  split; [| split].
  - intros Hs. now rewrite requests_stopped.
  - intros Hs. now rewrite requests_run.
  - apply served_prefix.
Qed.

(** X2: after a list of requests that is not empty, made to a device that is
    not latched, the cooling state is that of the last request served, the
    latch is set when one of the requests carried the STOP flag and only
    then, and the last call of the hook gave the cores that go with the
    cooling state: run one after the other, the requests leave the hardware
    and the state in step. *)
Theorem state_follows_requests (w : world) (l : list Z) :
  stop_flag (dev w) = 0 ->
  l <> [] ->
  let w' := (requests l w).2 in
  exists state,
    last (served l) = Some state /\
    gpucore_state (dev w') = to_uint (requested state) /\
    gpucore_get_cur_state w' = ((0, to_uint (requested state)), w') /\
    stop_flag (dev w') = (if any_stop l then 1 else 0) /\
    last (pp_calls w')
      = Some (to_uint (max_gpu_core_num (dev w') - gpucore_state (dev w'))).
Proof using long_bits.
  intros Hs Hl w'. subst w'. rewrite requests_run by assumption.
  cbn [snd dev pp_calls].
  destruct (last (served l)) as [state |] eqn:Hlast.
  - exists state. cbn [from_option]. repeat split.
    + run_callback. unfold to_ulong. rewrite Z.mod_small; [reflexivity |].
      assert (2 ^ 32 <= 2 ^ BITS_PER_LONG) by (apply Z.pow_le_mono_r; lia).
      pose proof (Z.mod_pos_bound (requested state) (2 ^ 32)).
      unfold to_uint. lia.
    + destruct (served l) as [| s1 l1] using rev_ind;
        [discriminate |].
      rewrite last_snoc in Hlast. injection Hlast as ->.
      rewrite map_app, app_assoc. cbn [map]. rewrite last_snoc.
      cbn. unfold cores_for, to_uint. now rewrite Zminus_mod_idemp_r.
  - apply last_None in Hlast. destruct l as [| state l]; [contradiction |].
    cbn in Hlast. destruct (Z.land state GPU_STOP =? GPU_STOP); discriminate.
Qed.

(** ** Callbacks through the framework *)

Lemma cdev_call_run {A} cdev (op : M A) k p d :
  thermal_cdevs k !! cdev = Some p -> kmem k !! p = Some d ->
  let w := {| dev := d; pp_calls := hw_calls k |} in
  cdev_call cdev op k
    = Some ((op w).1,
            {| gpucore_idr := gpucore_idr k;
               kmem := <[p := dev (op w).2]> (kmem k);
               thermal_cdevs := thermal_cdevs k;
               hw_calls := pp_calls (op w).2 |}).
Proof.
  intros Hc Hp w. unfold cdev_call, mbind. rewrite Hc. kernel_simpl.
  rewrite Hp. kernel_simpl. fold w. now destruct (op w).
Qed.

(** X3: in a state the users of the driver can reach, a request made through a
    registered cooling device does not go wrong: the structure behind the
    handle is allocated.  The request returns 0 and changes that structure
    only, and in it neither the id, the handle nor the core count; the ids
    in use and the registered cooling devices stay as they are; and
    get_cur_state through the same handle then returns the state the request
    left. *)
Theorem request_touches_one_device k cdev p state :
  reachable k ->
  thermal_cdevs k !! cdev = Some p ->
  exists d,
    kmem k !! p = Some d /\
    let w' := (gpucore_set_cur_state state
                 {| dev := d; pp_calls := hw_calls k |}).2 in
    let k' := {| gpucore_idr := gpucore_idr k;
                 kmem := <[p := dev w']> (kmem k);
                 thermal_cdevs := thermal_cdevs k;
                 hw_calls := pp_calls w' |} in
    cdev_call cdev (gpucore_set_cur_state state) k = Some (0, k') /\
    (forall q, q <> p -> kmem k' !! q = kmem k !! q) /\
    id (dev w') = id d /\ cool_dev (dev w') = cool_dev d /\
    max_gpu_core_num (dev w') = max_gpu_core_num d /\
    cdev_call cdev gpucore_get_cur_state k'
      = Some ((0, to_ulong (gpucore_state (dev w'))), k').
Proof.
  intros Hk Hc. apply reachable_consistent in Hk as (_ & Hreg & _).
  destruct (Hreg cdev p Hc) as (d & Hd & _). exists d.
  split; [exact Hd |]. intros w' k'.
  split; [| split; [| split; [| split; [| split]]]].
  - rewrite (cdev_call_run cdev _ k p d Hc Hd). cbn zeta.
    now rewrite set_cur_state_returns_0.
  - intros q Hq. cbn. now rewrite lookup_insert_ne.
  - apply set_cur_state_keeps_identity.
  - apply set_cur_state_keeps_identity.
  - apply set_cur_state_keeps_max.
  - rewrite (cdev_call_read cdev gpucore_get_cur_state k' p (dev w')
               (fun w => (0, to_ulong (gpucore_state (dev w)))));
      [reflexivity | exact Hc | apply lookup_insert_eq | reflexivity].
Qed.

(** ** Unregistration *)

(** Unregistering a cooling device whose structure is allocated and points
    back to it. *)
Lemma unregister_run cdev p d k :
  cdev <> 0 -> p <> 0 ->
  thermal_cdevs k !! cdev = Some p -> kmem k !! p = Some d ->
  gpucore_cooling_unregister cdev k
    = Some (tt, {| gpucore_idr := gpucore_idr k ∖ {[id d]};
                   kmem := delete p (kmem k);
                   thermal_cdevs := delete (cool_dev d) (thermal_cdevs k);
                   hw_calls := hw_calls k |}).
Proof.
  intros Hc0 Hp0 Hc Hp. run_kernel. rewrite (eqb_0_false cdev Hc0).
  kernel_simpl. rewrite Hc. kernel_simpl. rewrite Hp. kernel_simpl.
  rewrite (eqb_0_false p Hp0). kernel_simpl. rewrite Hp. reflexivity.
Qed.

(** A handle the framework does not know cannot be unregistered, except
    NULL, for which nothing is done. *)
Lemma unregister_unknown cdev k :
  thermal_cdevs k !! cdev = None ->
  gpucore_cooling_unregister cdev k
    = if cdev =? 0 then Some (tt, k) else None.
Proof.
  intros Hc. run_kernel. destruct (cdev =? 0); kernel_simpl; [reflexivity |].
  now rewrite Hc.
Qed.

(** X4: registering a structure and unregistering the cooling device it was
    bound to undoes the registration: the ids in use, the registered cooling
    devices and the hook calls are as before, and the structure is freed.
    The handle cannot be unregistered a second time: only for NULL does
    gpucore_cooling_unregister do nothing. *)
Theorem register_then_unregister k p d c :
  p <> 0 -> c <> 0 ->
  kmem k !! p = Some d ->
  thermal_cdevs k !! c = None ->
  smallest_unused (gpucore_idr k) <= INT_MAX ->
  (gpucore_cooling_register true c p;; gpucore_cooling_unregister c) k
    = Some (tt, without_dev p k) /\
  gpucore_cooling_unregister c (without_dev p k) = None /\
  gpucore_cooling_unregister 0 (without_dev p k)
    = Some (tt, without_dev p k).
Proof.
  intros Hp0 Hc0 Hp Hc Hn. split; [| split; [| reflexivity]].
  - unfold mbind at 1, K_bind at 1.
    rewrite (register_accepted c p k d Hc0 Hp Hn).
    erewrite (unregister_run c p);
      [| assumption | assumption | apply lookup_insert_eq
       | apply lookup_insert_eq].
    cbn [gpucore_idr kmem thermal_cdevs hw_calls id cool_dev
         with_gpucore_state with_cool_dev with_id].
    unfold without_dev. do 2 f_equal.
    destruct (smallest_unused_spec (gpucore_idr k)) as (_ & Hfresh & _).
    f_equal.
    + apply set_eq. intros x.
      rewrite elem_of_difference, elem_of_union, elem_of_singleton.
      split; [tauto | intros Hx; split; [tauto | congruence]].
    + apply delete_insert_eq.
    + now apply delete_insert_id.
  - rewrite unregister_unknown by exact Hc. now rewrite (eqb_0_false c Hc0).
Qed.

(** ** Ids and their holders *)

Lemma boot_accounted : accounted boot.
Proof. intros n Hn. now apply elem_of_empty in Hn. Qed.

Lemma step_accounted k k' :
  step k k' -> consistent k -> accounted k -> accounted k'.
Proof.
  intros Hstep (Hnull & Hreg & Huniq) Hacc.
  assert (Hheld : forall c q, thermal_cdevs k !! c = Some q ->
            exists dq, kmem k !! q = Some dq /\ cool_dev dq = c)
    by (intros c q Hc; destruct (Hreg c q Hc) as (dq & ? & ? & _); eauto).
  destruct Hstep as [q r k k' Hq Hcall | q f k k' Hfree Hcall
                    | mem_ok c q r k k' Hfree Hc Hcall
                    | cdev k k' Hcall | cdev state r k k' Hcall].
  - apply alloc_cases in Hcall as [(_ & _ & ->) | (_ & _ & ->)];
      [assumption |].
    intros n Hn. destruct (Hacc n Hn) as (Hrange & p & d & [Hd Hr] & Hid).
    split; [exact Hrange |]. exists p, d. split; [| exact Hid].
    split; [| exact Hr]. cbn. rewrite lookup_insert_ne by congruence.
    exact Hd.
  - apply store_cases in Hcall as (dq & Hdq & ->).
    intros n Hn. destruct (Hacc n Hn) as (Hrange & p & d & [Hd Hr] & Hid).
    split; [exact Hrange |]. exists p, d. split; [| exact Hid].
    split; [| exact Hr]. cbn. rewrite lookup_insert_ne by congruence.
    exact Hd.
  - apply register_cases in Hcall
      as [(_ & ->) | (_ & Hc0 & _ & Hmax & dq & Hdq & ->)]; [| | assumption].
    + intros n Hn. destruct (Hacc n Hn) as (Hrange & p & d & [Hd Hr] & Hid).
      split; [exact Hrange |]. exists p, d. split; [| exact Hid].
      split; [| exact Hr]. cbn. rewrite lookup_delete_ne by congruence.
      exact Hd.
    + intros n Hn. cbn in Hn.
      apply elem_of_union in Hn as [->%elem_of_singleton | Hn].
      * destruct (smallest_unused_spec (gpucore_idr k)) as (H0 & _).
        split; [lia |].
        exists q, (with_gpucore_state 0
                     (with_cool_dev c
                        (with_id (smallest_unused (gpucore_idr k)) dq))).
        split; [| reflexivity].
        split; [apply lookup_insert_eq |].
        exists c. apply lookup_insert_eq.
      * destruct (Hacc n Hn) as (Hrange & p & d & [Hd [c' Hc']] & Hid).
        split; [exact Hrange |]. exists p, d. split; [| exact Hid].
        assert (p <> q) by (intros ->; apply Hfree; now exists c').
        split; [cbn; now rewrite lookup_insert_ne |].
        exists c'. cbn. rewrite lookup_insert_ne by congruence. exact Hc'.
  - apply unregister_cases in Hcall
      as [(_ & ->) | (p0 & d0 & Hc0 & Hd0 & ->)]; [assumption | | assumption].
    intros n Hn. cbn in Hn. apply elem_of_difference in Hn as [Hn Hne].
    rewrite elem_of_singleton in Hne.
    destruct (Hacc n Hn) as (Hrange & p & d & [Hd [c' Hc']] & Hid).
    split; [exact Hrange |]. exists p, d. split; [| exact Hid].
    assert (Hp : p <> p0) by (intros ->; congruence).
    destruct (Hheld cdev p0 Hc0) as (d0' & Hd0' & Hback).
    assert (d0' = d0) by congruence. subst d0'.
    split; [cbn; now rewrite lookup_delete_ne |].
    exists c'. cbn. rewrite lookup_delete_ne; [exact Hc' |].
    rewrite Hback. intros ->. congruence.
  - apply cdev_call_cases in Hcall as (p0 & d0 & Hc0 & Hd0 & _ & ->).
    intros n Hn. cbn in Hn.
    destruct (Hacc n Hn) as (Hrange & p & d & [Hd Hr] & Hid).
    split; [exact Hrange |].
    destruct (decide (p = p0)) as [-> | Hp].
    + assert (d = d0) by congruence. subst d.
      exists p0, (dev (gpucore_set_cur_state state
                         {| dev := d0; pp_calls := hw_calls k |}).2).
      split; [split; [apply lookup_insert_eq | exact Hr] |].
      rewrite <- Hid. apply set_cur_state_keeps_identity.
    + exists p, d. split; [| exact Hid].
      split; [cbn; now rewrite lookup_insert_ne | exact Hr].
Qed.

Lemma reachable_accounted k : reachable k -> accounted k.
Proof.
  intros Hk.
  enough (consistent k /\ accounted k) as [_ H] by exact H.
  revert k Hk. unfold reachable.
  apply (rtc_ind_r (fun k => consistent k /\ accounted k) boot).
  - split; [apply boot_consistent | apply boot_accounted].
  - intros k k' _ Hstep [Hc Ha]. split.
    + now apply (step_consistent k).
    + now apply (step_accounted k).
Qed.

(** X5: in every state the users of the driver can reach, the ids in use are
    those of the live controllers, no more and no less: no id is leaked and
    no live controller holds an id that is free.  Every id in use fits an
    int. *)
Theorem ids_are_those_of_live_controllers k :
  reachable k ->
  forall n,
    (n ∈ gpucore_idr k <-> exists p d, live k p d /\ id d = n) /\
    (n ∈ gpucore_idr k -> 0 <= n <= INT_MAX).
Proof.
  intros Hk n. pose proof (reachable_accounted k Hk) as Hacc.
  apply reachable_consistent in Hk as (_ & Hreg & _).
  split; [split |].
  - intros Hn. now destruct (Hacc n Hn).
  - intros (p & d & [Hd [c Hc]] & <-).
    destruct (Hreg c p Hc) as (d' & Hd' & _ & Hin). congruence.
  - intros Hn. now destruct (Hacc n Hn).
Qed.

(** X6: in a state the users of the driver can reach, unregistering a
    registered cooling device does not go wrong.  It frees the structure,
    detaches the handle and frees the id, which the next get_idr then issues
    unless a smaller id is free; it calls no hook; and every other live
    controller stays live and as it was, its id still in use. *)
Theorem unregister_frees_id k cdev p :
  reachable k ->
  thermal_cdevs k !! cdev = Some p ->
  cdev <> 0 ->
  exists d k',
    kmem k !! p = Some d /\
    gpucore_cooling_unregister cdev k = Some (tt, k') /\
    kmem k' !! p = None /\
    thermal_cdevs k' !! cdev = None /\
    (id d ∉ gpucore_idr k') /\
    smallest_unused (gpucore_idr k') <= id d /\
    hw_calls k' = hw_calls k /\
    (forall q dq, q <> p -> live k q dq ->
       live k' q dq /\ id dq ∈ gpucore_idr k').
Proof.
  intros Hk Hc Hc0. pose proof (reachable_accounted k Hk) as Hacc.
  apply reachable_consistent in Hk as (Hnull & Hreg & Huniq).
  destruct (Hreg cdev p Hc) as (d & Hd & Hback & Hin).
  assert (Hp0 : p <> 0) by congruence.
  eexists d, _. split; [exact Hd |].
  split; [apply (unregister_run cdev p d k Hc0 Hp0 Hc Hd) |].
  rewrite Hback. cbn [gpucore_idr kmem thermal_cdevs hw_calls].
  assert (Hout : id d ∉ gpucore_idr k ∖ {[id d]}).
  { rewrite elem_of_difference, elem_of_singleton. tauto. }
  split; [apply lookup_delete_eq |]. split; [apply lookup_delete_eq |].
  split; [exact Hout |]. split; [| split; [reflexivity |]].
  - destruct (smallest_unused_spec (gpucore_idr k ∖ {[id d]}))
      as (_ & _ & Hbelow).
    destruct (Hacc (id d) Hin) as [Hrange _].
    destruct (Z_le_gt_dec (smallest_unused (gpucore_idr k ∖ {[id d]}))
                (id d)) as [| Hgt]; [assumption |].
    exfalso. apply Hout, Hbelow. lia.
  - intros q dq Hq [Hdq [c' Hc']].
    destruct (Hreg c' q Hc') as (dq' & Hdq' & Hback' & Hin').
    assert (dq' = dq) by congruence. subst dq'.
    assert (Hcc : cdev <> c') by (intros ->; congruence).
    split; [split |].
    + cbn. now rewrite lookup_delete_ne.
    + exists c'. cbn. now rewrite lookup_delete_ne.
    + apply elem_of_difference. split; [exact Hin' |].
      rewrite elem_of_singleton. intros Hid. apply Hq.
      apply (Huniq q p dq d); unfold live, registered; eauto.
Qed.

(** ** Allocation and registration *)

(** X7: gpucore_cooling_alloc never returns NULL.  When kzalloc fails it
    returns ERR_PTR(-ENOMEM), which is 2^BITS_PER_LONG - 12, and changes
    nothing; otherwise it returns the address of a structure that is all
    zero, and the other structures, the ids in use, the registered cooling
    devices and the hook calls are as before. *)
Theorem alloc_result p k :
  exists r k',
    gpucore_cooling_alloc p k = Some (r, k') /\
    r <> 0 /\
    (p = 0 -> r = 2 ^ BITS_PER_LONG - 12 /\ k' = k) /\
    (p <> 0 ->
     r = p /\ kmem k' !! p = Some zeroed /\
     (forall q, q <> p -> kmem k' !! q = kmem k !! q) /\
     gpucore_idr k' = gpucore_idr k /\
     thermal_cdevs k' = thermal_cdevs k /\
     hw_calls k' = hw_calls k).
Proof using long_bits.
  destruct (Z.eq_dec p 0) as [-> | Hp].
  - exists (ERR_PTR (- ENOMEM)), k. split; [reflexivity |].
    split; [apply ERR_PTR_nonzero; unfold ENOMEM; lia |].
    split; [| contradiction]. intros _. split; [| reflexivity].
    unfold ERR_PTR, to_ulong, ENOMEM.
    assert (2 ^ 32 <= 2 ^ BITS_PER_LONG) by (apply Z.pow_le_mono_r; lia).
    rewrite <- (Z.mod_add _ 1) by lia. rewrite Z.mod_small; lia.
  - exists p, (with_dev p zeroed k). split; [now apply alloc_success |].
    split; [exact Hp |]. split; [contradiction |]. intros _.
    split; [reflexivity |]. split; [apply lookup_insert_eq |].
    split; [| auto]. intros q Hq. cbn. now rewrite lookup_insert_ne.
Qed.

(** X8: a registration that succeeds writes the id, the handle and the cooling
    state 0 to the structure and nothing else: the latch and the core count
    are kept, so a structure registered with the latch set serves no
    request.  It calls no hook, whatever the cooling state was; it marks one
    id used, binds one handle, and leaves the other structures alone. *)
Theorem register_writes_three_fields k p d c :
  c <> 0 ->
  kmem k !! p = Some d ->
  smallest_unused (gpucore_idr k) <= INT_MAX ->
  exists k' d',
    gpucore_cooling_register true c p k = Some (0, k') /\
    kmem k' !! p = Some d' /\
    id d' = smallest_unused (gpucore_idr k) /\
    cool_dev d' = c /\ gpucore_state d' = 0 /\
    stop_flag d' = stop_flag d /\
    max_gpu_core_num d' = max_gpu_core_num d /\
    hw_calls k' = hw_calls k /\
    (forall q, q <> p -> kmem k' !! q = kmem k !! q) /\
    (forall c', c' <> c -> thermal_cdevs k' !! c' = thermal_cdevs k !! c') /\
    (forall n, n ∈ gpucore_idr k' <->
               n = smallest_unused (gpucore_idr k) \/ n ∈ gpucore_idr k) /\
    (stop_flag d <> 0 ->
     forall l hw,
       requests l {| dev := d'; pp_calls := hw |}
         = (replicate (length l) 0, {| dev := d'; pp_calls := hw |})).
Proof.
  intros Hc Hp Hn. eexists _, _.
  split; [apply (register_accepted c p k d Hc Hp Hn) |].
  cbn [gpucore_idr kmem thermal_cdevs hw_calls].
  split; [apply lookup_insert_eq |].
  do 6 (split; [reflexivity |]).
  split; [intros q Hq; now rewrite lookup_insert_ne |].
  split; [intros c' Hc'; now rewrite lookup_insert_ne |].
  split.
  - intros n. rewrite elem_of_union, elem_of_singleton. tauto.
  - intros Hs l hw. now apply requests_stopped.
Qed.

(** X9: get_idr returns 0 or a negative code, never the id, which goes through
    the pointer.  When it returns 0 the id stored was free before, is in use
    after and is the only id that changed, and no other structure is
    written; when it returns a negative code nothing is stored and nothing
    changes. *)
Theorem get_idr_result mem_ok p k r k' :
  get_idr mem_ok p k = Some (r, k') ->
  (r = 0 /\
   exists d, kmem k !! p = Some d /\
     let n := smallest_unused (gpucore_idr k) in
     kmem k' !! p = Some (with_id n d) /\
     0 <= n <= INT_MAX /\ (n ∉ gpucore_idr k) /\
     gpucore_idr k' = {[n]} ∪ gpucore_idr k /\
     (forall q, q <> p -> kmem k' !! q = kmem k !! q)) \/
  (r < 0 /\ k' = k).
Proof.
  intros Hget.
  destruct (decide (mem_ok = true
                    /\ smallest_unused (gpucore_idr k) <= INT_MAX))
    as [[-> Hn] | Hno].
  - left. destruct (kmem k !! p) as [d |] eqn:Hp.
    + rewrite (get_idr_success p k d Hp Hn) in Hget.
      injection Hget as <- <-. split; [reflexivity |].
      destruct (smallest_unused_spec (gpucore_idr k)) as (H0 & Hfresh & _).
      exists d. split; [reflexivity |]. cbn.
      split; [apply lookup_insert_eq |]. split; [lia |].
      split; [exact Hfresh |]. split; [reflexivity |].
      intros q Hq. now rewrite lookup_insert_ne.
    + exfalso. revert Hget. run_kernel.
      assert (Hlt : (INT_MAX <? smallest_unused (gpucore_idr k)) = false)
        by (apply Z.ltb_ge; exact Hn).
      rewrite Hlt. kernel_simpl.
      destruct (smallest_unused_spec (gpucore_idr k)) as [H0 _].
      apply Z.ltb_ge in H0. rewrite H0. kernel_simpl. rewrite Hp.
      discriminate.
  - right. revert Hget. run_kernel. destruct mem_ok; kernel_simpl.
    + destruct (INT_MAX <? smallest_unused (gpucore_idr k)) eqn:Hlt.
      * kernel_simpl. change (- ENOSPC <? 0) with true. kernel_simpl.
        intros [= <- <-]. split; reflexivity.
      * exfalso. apply Hno. split; [reflexivity |]. now apply Z.ltb_ge.
    + change (- ENOMEM <? 0) with true. kernel_simpl.
      intros [= <- <-]. split; reflexivity.
Qed.

(** ** The name of the cooling device *)

Lemma substring_whole (s : string) (m : nat) :
  (String.length s <= m)%nat -> String.substring 0 m s = s.
Proof.
  revert m. induction s as [| a s IH]; intros m Hm.
  - now destruct m.
  - destruct m as [| m]; cbn in *; [lia |]. rewrite IH by lia. reflexivity.
Qed.

Lemma substring_length (s : string) (m : nat) :
  String.length (String.substring 0 m s) = Nat.min m (String.length s).
Proof.
  revert m. induction s as [| a s IH]; intros m.
  - destruct m; reflexivity.
  - destruct m as [| m]; cbn; [reflexivity |]. now rewrite IH.
Qed.

(** Ids of at most three digits, and ids of four digits with their last
    digit dropped, as the format prints them. *)
Lemma three_digits (n : Z) :
  0 <= n < 1000 -> (String.length (name_text n) <= 19)%nat.
Proof.
  intros Hn.
  assert (Hall : forallb (fun i => String.length (name_text (Z.of_nat i))
                                    <=? 19)%nat (seq 0 1000) = true)
    by (vm_compute; reflexivity).
  rewrite forallb_forall in Hall.
  specialize (Hall (Z.to_nat n)). rewrite Z2Nat.id in Hall by lia.
  apply Nat.leb_le, Hall, in_seq. lia.
Qed.

Lemma four_digits (m j : Z) :
  100 <= m < 1000 -> 0 <= j < 10 ->
  String.substring 0 19 (name_text (10 * m + j)) = name_text m.
Proof.
  intros Hm Hj.
  assert (Hall : forallb
                   (fun i => if decide (String.substring 0 19
                                          (name_text (Z.of_nat i))
                                        = name_text (Z.of_nat i / 10))
                             then true else false)
                   (seq 1000 (9 * 1000)) = true)
    by (vm_compute; reflexivity).
  rewrite forallb_forall in Hall.
  specialize (Hall (Z.to_nat (10 * m + j))). rewrite Z2Nat.id in Hall by lia.
  destruct (decide _) as [Heq | _] in Hall.
  - rewrite Heq. f_equal. symmetry. apply (Z.div_unique _ _ m j); lia.
  - enough (false = true) by discriminate. apply Hall, in_seq. lia.
Qed.

(** X10: the name never overflows the buffer and is the beginning of the text
    "thermal-gpucore-" followed by the id in decimal.  Ids whose text fits
    the buffer get different names.  With a buffer of at least 20 bytes the
    ids 0 to 999 fit; with one of exactly 20 bytes the ids 1000 to 9999
    lose their last digit, so that ten of them share each name. *)
Theorem dev_name_of_id :
  (forall n,
     (String.length (dev_name n) <= THERMAL_NAME_LENGTH - 1)%nat /\
     String.prefix (dev_name n) (name_text n) = true) /\
  (forall n1 n2,
     (String.length (name_text n1) < THERMAL_NAME_LENGTH)%nat ->
     (String.length (name_text n2) < THERMAL_NAME_LENGTH)%nat ->
     dev_name n1 = dev_name n2 -> n1 = n2) /\
  (forall n,
     (20 <= THERMAL_NAME_LENGTH)%nat -> 0 <= n < 1000 ->
     dev_name n = name_text n) /\
  (forall m j,
     THERMAL_NAME_LENGTH = 20%nat -> 100 <= m < 1000 -> 0 <= j < 10 ->
     dev_name (10 * m + j) = name_text m).
Proof.
  unfold dev_name, snprintf. split; [| split; [| split]].
  - intros n. split.
    + rewrite substring_length. lia.
    + apply String.prefix_correct. rewrite substring_length.
      remember (name_text n) as s. clear Heqs.
      generalize (THERMAL_NAME_LENGTH - 1)%nat as m.
      induction s as [| a s IH]; intros m; [now destruct m |].
      destruct m as [| m]; cbn; [reflexivity |]. now rewrite IH.
  - intros n1 n2 H1 H2. rewrite !substring_whole by lia.
    unfold name_text. intros Heq. cbn in Heq. injection Heq as Heq.
    now apply pretty_Z_inj in Heq.
  - intros n Hsize Hn. pose proof (three_digits n Hn).
    apply substring_whole. lia.
  - intros m j -> Hm Hj. now apply four_digits.
Qed.

(** ** Calls under a schedule *)


Lemma interleave_cons i sched ts w :
  interleave (i :: sched) ts w =
    match ts !! i with
    | Some t => let (t', w') := call_step t w in
                interleave sched (<[i := t']> ts) w'
    | None => interleave sched ts w
    end.
Proof.
  cbn [interleave]. destruct (ts !! i) as [t |]; [| reflexivity].
  unfold mbind, M_bind. now destruct (call_step t w).
Qed.

(** What one step of a call leaves alone. *)
Lemma call_step_keeps t w :
  let w' := (call_step t w).2 in
  id (dev w') = id (dev w) /\ cool_dev (dev w') = cool_dev (dev w) /\
  max_gpu_core_num (dev w') = max_gpu_core_num (dev w) /\
  (stop_flag (dev w) <> 0 -> stop_flag (dev w') <> 0) /\
  pp_calls w `prefix_of` pp_calls w'.
Proof.
  destruct t as [state | state | state | r]; unfold call_step; run_callback.
  - destruct (stop_flag (dev w) =? 0) eqn:Hs; cbn.
    + destruct (Z.land state GPU_STOP =? GPU_STOP); cbn;
        repeat split; try discriminate; auto.
    + repeat split; auto.
  - repeat split; auto.
  - repeat split; auto. now exists [to_uint
      (to_int (to_ulong (max_gpu_core_num (dev w) - state)))].
  - repeat split; auto.
Qed.

(** A call outside its locked section does nothing on a latched device. *)
Lemma call_step_latched t w :
  stop_flag (dev w) <> 0 -> outside t ->
  (call_step t w).2 = w /\ outside (call_step t w).1.
Proof.
  intros Hs Ht. destruct t as [state | state | state | r];
    try contradiction; unfold call_step; run_callback; [| auto].
  apply Z.eqb_neq in Hs. rewrite Hs. cbn. auto.
Qed.

(** X11: however the calls in flight are scheduled, and wherever they stand,
    the id, the handle and the core count of the device do not change, the
    latch stays set once it is set, and the record of hook calls only grows.
    When the latch is set and no call is past its locked section, nothing
    changes at all: the latch holds for every call that starts after it,
    racing or not. *)
Theorem latch_holds_under_any_schedule (sched : list nat) (ts : list call)
    (w : world) :
  let w' := (interleave sched ts w).2 in
  (id (dev w') = id (dev w) /\ cool_dev (dev w') = cool_dev (dev w) /\
   max_gpu_core_num (dev w') = max_gpu_core_num (dev w) /\
   (stop_flag (dev w) <> 0 -> stop_flag (dev w') <> 0) /\
   pp_calls w `prefix_of` pp_calls w') /\
  (stop_flag (dev w) <> 0 -> Forall outside ts ->
   w' = w /\ Forall outside (interleave sched ts w).1).
Proof.
  cbn zeta. split.
  - revert ts w. induction sched as [| i sched IH]; intros ts w.
    + cbn. repeat split; auto.
    + rewrite interleave_cons. destruct (ts !! i) as [t |]; [| apply IH].
      pose proof (call_step_keeps t w) as Hstep. cbn zeta in Hstep.
      destruct (call_step t w) as [t' w1]. cbn [snd] in Hstep.
      destruct Hstep as (Hid & Hcd & Hmax & Hlatch & Hlog).
      destruct (IH (<[i := t']> ts) w1) as (Hid' & Hcd' & Hmax' & Hlatch'
                                             & Hlog').
      repeat split; try congruence; [auto |]. now transitivity (pp_calls w1).
  - revert ts w. induction sched as [| i sched IH]; intros ts w Hs Hts.
    + cbn. auto.
    + rewrite interleave_cons. destruct (ts !! i) as [t |] eqn:Hi;
        [| now apply IH].
      assert (Ht : outside t)
        by (eapply Forall_lookup_1; eassumption).
      destruct (call_step_latched t w Hs Ht) as [Hw Ht'].
      destruct (call_step t w) as [t' w1]. cbn [fst snd] in Hw, Ht'.
      subst w1. apply IH; [assumption |]. now apply Forall_insert.
Qed.




End Driver.

(** * The spec's scenario, run *)

Example scenario_run :
  requests STOP_BIT31 64 [3; Z.lor STOP_BIT31 6; 1] eight_cores
    = ([0; 0; 0], latched).
Proof. vm_compute. reflexivity. Qed.

Example two_registered_run :
  (bring_up 64 100 8 true 500;; bring_up 64 200 4 true 600) boot
    = Some (0, two_registered).
Proof. vm_compute. reflexivity. Qed.

(** The two registered devices of the scenario are reached through the
    calls of the driver. *)
Lemma two_registered_reachable : reachable STOP_BIT31 64 two_registered.
Proof.
  unfold reachable.
  eapply rtc_l.
  { apply (step_alloc STOP_BIT31 64 100 100 boot
             (with_dev 100 zeroed boot)); reflexivity. }
  eapply rtc_l.
  { apply (step_setup STOP_BIT31 64 100 (with_max_gpu_core_num 8)
             _ (with_dev 100 (with_max_gpu_core_num 8 zeroed) boot)).
    - apply not_registered_check. reflexivity.
    - vm_compute. reflexivity. }
  eapply rtc_l.
  { apply (step_register STOP_BIT31 64 true 500 100 0 _
             {| gpucore_idr := {[0]};
                kmem := {[100 := with_cool_dev 500
                                   (with_max_gpu_core_num 8 zeroed)]};
                thermal_cdevs := {[500 := 100]};
                hw_calls := [] |}).
    - apply not_registered_check. reflexivity.
    - reflexivity.
    - vm_compute. reflexivity. }
  eapply rtc_l.
  { apply (step_alloc STOP_BIT31 64 200 200 _
             {| gpucore_idr := {[0]};
                kmem := {[100 := with_cool_dev 500
                                   (with_max_gpu_core_num 8 zeroed);
                          200 := zeroed]};
                thermal_cdevs := {[500 := 100]};
                hw_calls := [] |}).
    - reflexivity.
    - vm_compute. reflexivity. }
  eapply rtc_l.
  { apply (step_setup STOP_BIT31 64 200 (with_max_gpu_core_num 4) _
             {| gpucore_idr := {[0]};
                kmem := {[100 := with_cool_dev 500
                                   (with_max_gpu_core_num 8 zeroed);
                          200 := with_max_gpu_core_num 4 zeroed]};
                thermal_cdevs := {[500 := 100]};
                hw_calls := [] |}).
    - apply not_registered_check. vm_compute. reflexivity.
    - vm_compute. reflexivity. }
  eapply rtc_l; [| apply rtc_refl].
  apply (step_register STOP_BIT31 64 true 600 200 0).
  - apply not_registered_check. vm_compute. reflexivity.
  - reflexivity.
  - vm_compute. reflexivity.
Qed.

(** The request STOP|6 to the first of them is a call of the users. *)
Lemma first_latched_step : step STOP_BIT31 64 two_registered first_latched.
Proof.
  apply (step_set_cur_state STOP_BIT31 64 500 (Z.lor STOP_BIT31 6) 0).
  vm_compute. reflexivity.
Qed.

Lemma first_latched_reachable : reachable STOP_BIT31 64 first_latched.
Proof.
  eapply rtc_r; [apply two_registered_reachable | apply first_latched_step].
Qed.

(** A request to a latched device is a call that changes nothing. *)
Lemma first_latched_idle : step STOP_BIT31 64 first_latched first_latched.
Proof.
  apply (step_set_cur_state STOP_BIT31 64 500 1 0). vm_compute. reflexivity.
Qed.

(** * The claims, at the scenario *)

Lemma long_is_64 : 32 <= 64.
Proof. lia. Defined.

(** C1 at the first request of the scenario: state 3 of 8. *)
Lemma set_cur_state_in_range_witness :
  gpucore_set_cur_state STOP_BIT31 64 3 eight_cores = (0, throttled) /\
  gpucore_get_cur_state 64 throttled = ((0, 3), throttled).
Proof.
  apply (set_cur_state_in_range STOP_BIT31 64 long_is_64 eight_cores 3).
  - reflexivity.
  - vm_compute. discriminate.
  - split; vm_compute; discriminate.
  - vm_compute. discriminate.
Defined.

(** C2 at the scenario: after the request STOP|6, the requests 1, 8 and
    STOP|2 are all accepted and ignored, and the latched device in the
    kernel is as it was after a further request. *)
Lemma stop_latch_permanent_witness :
  has_stop STOP_BIT31 (Z.lor STOP_BIT31 6) /\
  stop_flag (dev latched) <> 0 /\
  requests STOP_BIT31 64 [1; 8; Z.lor STOP_BIT31 2] latched
    = ([0; 0; 0], latched) /\
  (live first_latched 100
     (with_stop_flag 1
        (with_gpucore_state 6
           (with_cool_dev 500 (with_max_gpu_core_num 8 zeroed)))) /\
   with_stop_flag 1
     (with_gpucore_state 6 (with_cool_dev 500 (with_max_gpu_core_num 8 zeroed)))
   = with_stop_flag 1
       (with_gpucore_state 6
          (with_cool_dev 500 (with_max_gpu_core_num 8 zeroed)))).
Proof.
  split; [reflexivity |].
  destruct (stop_latch_permanent STOP_BIT31 64 throttled
              (Z.lor STOP_BIT31 6) [1; 8; Z.lor STOP_BIT31 2] eq_refl)
    as (Hlatch & Hidle & Hlive).
  assert (Hd : live first_latched 100
                 (with_stop_flag 1
                    (with_gpucore_state 6
                       (with_cool_dev 500 (with_max_gpu_core_num 8 zeroed)))))
    by (split; [reflexivity | exists 500; reflexivity]).
  refine (conj Hlatch (conj Hidle (conj Hd _))).
  apply (Hlive first_latched first_latched 100 _ _
           first_latched_reachable first_latched_idle Hd Hd).
  discriminate.
Defined.

(** C3 at the scenario: the request STOP|6 after the request 3. *)
Lemma stop_request_latches_witness :
  gpucore_set_cur_state STOP_BIT31 64 (Z.lor STOP_BIT31 6) throttled
    = (0, latched) /\
  gpucore_get_cur_state 64 latched = ((0, 6), latched) /\
  Z.land 6 STOP_BIT31 = 0 /\
  to_uint 6 = 6 /\ to_uint (8 - 6) = 8 - 6.
Proof.
  destruct (stop_request_latches STOP_BIT31 64 long_is_64 throttled
              (Z.lor STOP_BIT31 6) eq_refl eq_refl)
    as (Hrun & Hget & Hclear & Hexact).
  refine (conj Hrun (conj Hget (conj Hclear _))).
  apply Hexact; [split |]; vm_compute; discriminate.
Defined.

(** C4 as the spec has it fails: the request for state 9 of 8 returns 0 and
    reaches the hook. *)
Lemma out_of_range_not_rejected :
  ~ rejects_out_of_range STOP_BIT31 64 eight_cores 9.
Proof.
  intros Hspec. destruct Hspec as [Hfails _].
  - vm_compute. reflexivity.
  - apply Hfails. reflexivity.
Qed.

(** C4 as the driver has it, at that request. *)
Lemma set_cur_state_unchecked_witness :
  (gpucore_set_cur_state STOP_BIT31 64 9 eight_cores).1 = 0 /\
  pp_calls (gpucore_set_cur_state STOP_BIT31 64 9 eight_cores).2
    = [4294967295] /\
  gpucore_state (dev (gpucore_set_cur_state STOP_BIT31 64 9 eight_cores).2)
    = 9 /\
  to_uint (8 - 9) = 8 - 9 + 2 ^ 32.
Proof.
  destruct (set_cur_state_unchecked STOP_BIT31 64 long_is_64 eight_cores 9)
    as (Hret & Hrest).
  destruct (Hrest eq_refl) as (Hcalls & Hstate & Hwrap).
  refine (conj Hret (conj Hcalls (conj Hstate _))).
  apply Hwrap. split; vm_compute; [reflexivity | discriminate].
Defined.

(** C5 fails on the driver: the calls are not atomic.  Two calls race on
    the eight-core device.  With one for STOP|6 and one for 1, the second
    passes the locked section before the first takes the lock, the first
    then runs to its end, and the second goes on: the device is left latched
    with cooling state 1 and the hardware with 7 cores, set after the latch.
    With one for 3 and one for 5, both pass the locked section and store
    their state, the second calls the hook, then the first: the device is
    left with cooling state 5 and the hardware with the 5 cores of state 3.
    Run one after the other, in either order, the calls end otherwise. *)
Theorem set_cur_state_race :
  (interleave STOP_BIT31 64 [1; 0; 0; 0; 1; 1]%nat
       [AtLock (Z.lor STOP_BIT31 6); AtLock 1] eight_cores
     = ([Returned 0; Returned 0],
        {| dev := with_stop_flag 1 (with_gpucore_state 1 (dev eight_cores));
           pp_calls := [2; 7] |}) /\
   requests STOP_BIT31 64 [Z.lor STOP_BIT31 6; 1] eight_cores
     = ([0; 0],
        {| dev := with_stop_flag 1 (with_gpucore_state 6 (dev eight_cores));
           pp_calls := [2] |}) /\
   requests STOP_BIT31 64 [1; Z.lor STOP_BIT31 6] eight_cores
     = ([0; 0],
        {| dev := with_stop_flag 1 (with_gpucore_state 6 (dev eight_cores));
           pp_calls := [7; 2] |})) /\
  (interleave STOP_BIT31 64 [0; 1; 0; 1; 1; 0]%nat
       [AtLock 3; AtLock 5] eight_cores
     = ([Returned 0; Returned 0],
        {| dev := with_gpucore_state 5 (dev eight_cores);
           pp_calls := [3; 5] |}) /\
   requests STOP_BIT31 64 [3; 5] eight_cores
     = ([0; 0],
        {| dev := with_gpucore_state 5 (dev eight_cores);
           pp_calls := [5; 3] |}) /\
   requests STOP_BIT31 64 [5; 3] eight_cores
     = ([0; 0],
        {| dev := with_gpucore_state 3 (dev eight_cores);
           pp_calls := [3; 5] |})).
Proof. vm_compute. repeat split. Qed.

(** C6 at a rejected binding and at a failed id allocation: the structure
    at 100 is freed, nothing else changes, and the id 0, which the rejected
    registration had obtained, goes to the next structure. *)
Lemma register_failure_rolls_back_witness :
  (gpucore_cooling_register 64 true 0 100 two_allocated
     = Some (ERR_PTR 64 (- EINVAL), without_dev 100 two_allocated) /\
   kmem (without_dev 100 two_allocated) !! 100 = None /\
   gpucore_idr (without_dev 100 two_allocated) = ∅ /\
   (exists k1,
      get_idr true 100 two_allocated = Some (0, k1) /\
      0 ∈ gpucore_idr k1 /\ 0 ∉ gpucore_idr (without_dev 100 two_allocated)) /\
   exists k'',
     get_idr true 200 (without_dev 100 two_allocated) = Some (0, k'') /\
     kmem k'' !! 200 = Some (with_id 0 (with_max_gpu_core_num 4 zeroed))) /\
  (gpucore_cooling_register 64 false 500 100 two_allocated
     = Some (ERR_PTR 64 (- EINVAL), without_dev 100 two_allocated) /\
   ERR_PTR 64 (- EINVAL) <> 0).
Proof.
  destruct (register_failure_rolls_back 64 long_is_64 true 0 100
              two_allocated (with_max_gpu_core_num 8 zeroed))
    as [Hrejected _]; [discriminate | reflexivity |].
  destruct (register_failure_rolls_back 64 long_is_64 false 500 100
              two_allocated (with_max_gpu_core_num 8 zeroed))
    as [Hnoid _]; [discriminate | reflexivity |].
  destruct Hrejected
    as (r & k' & Hrun & _ & Hgone & _ & Hidr & _ & _ & _ & Hid & Hnext).
  { right. right. reflexivity. }
  destruct Hnoid as (r2 & k2 & Hrun2 & Hr2 & _).
  { left. reflexivity. }
  assert (Hrun' : gpucore_cooling_register 64 true 0 100 two_allocated
                  = Some (ERR_PTR 64 (- EINVAL), without_dev 100 two_allocated))
    by (vm_compute; reflexivity).
  assert (Hrun2' : gpucore_cooling_register 64 false 500 100 two_allocated
                   = Some (ERR_PTR 64 (- EINVAL),
                           without_dev 100 two_allocated))
    by (vm_compute; reflexivity).
  rewrite Hrun' in Hrun. injection Hrun as <- <-.
  rewrite Hrun2' in Hrun2. injection Hrun2 as <- <-.
  refine (conj (conj Hrun' (conj Hgone (conj Hidr (conj _ _))))
               (conj Hrun2' Hr2)).
  - apply Hid; [reflexivity | vm_compute; discriminate].
  - apply (Hnext 200 (with_max_gpu_core_num 4 zeroed));
      [reflexivity | vm_compute; discriminate].
Defined.

(** C7 at the scenario: the first id is 0; of three ids issued, 0, 1 and
    2, releasing 1 makes 1 available and leaves 0 and 2 in use and 3 free;
    the two registered devices hold different ids. *)
Lemma identity_allocation_witness :
  (exists k',
     get_idr true 100 two_allocated = Some (0, k') /\
     kmem k' !! 100 = Some (with_id 0 (with_max_gpu_core_num 8 zeroed)) /\
     gpucore_idr k' = {[0]} ∪ ∅) /\
  (exists k1 k2,
     allocate_ids 3 100 two_allocated = Some ([0; 1; 2], k1) /\
     release_ids [1] k1 = Some (tt, k2) /\
     (1 ∉ gpucore_idr k2) /\ (0 ∈ gpucore_idr k2) /\ (2 ∈ gpucore_idr k2) /\
     (3 ∉ gpucore_idr k2)) /\
  id (with_cool_dev 500 (with_max_gpu_core_num 8 zeroed))
    <> id (with_cool_dev 600 (with_id 1 (with_max_gpu_core_num 4 zeroed))).
Proof.
  destruct (identity_allocation STOP_BIT31 64) as (Hissue & Hreuse & Huniq).
  split; [| split].
  - destruct (Hissue two_allocated 100 (with_max_gpu_core_num 8 zeroed))
      as (k' & Hget & Hid & Hidr & _); [reflexivity | |].
    { vm_compute. discriminate. }
    exists k'. exact (conj Hget (conj Hid Hidr)).
  - destruct (Hreuse two_allocated 100 (with_max_gpu_core_num 8 zeroed)
                3%nat)
      as (ids & k1 & Hrun & _ & _ & Hrel); [reflexivity | |].
    { vm_compute. discriminate. }
    assert (Hids : ids = [0; 1; 2]).
    { assert (Hc : exists k, allocate_ids 3 100 two_allocated
                             = Some ([0; 1; 2], k))
        by (vm_compute; eexists; reflexivity).
      destruct Hc as [k Hc]. rewrite Hc in Hrun. now inversion Hrun. }
    subst ids.
    destruct (Hrel [1]) as (k2 & Hfree & Hafter).
    { intros v Hv. apply list_elem_of_singleton in Hv as ->.
      apply elem_of_cons. right. apply elem_of_cons. now left. }
    exists k1, k2. refine (conj Hrun (conj Hfree _)).
    assert (Hin : forall v : Z, bool_decide (v ∈ [0; 1; 2]) = true ->
                    v ∈ [0; 1; 2])
      by (intros v; apply bool_decide_eq_true).
    assert (Hempty : forall v : Z,
              v ∈ gpucore_idr two_allocated -> False).
    { intros v Hv. change (gpucore_idr two_allocated) with (∅ : gset Z) in Hv.
      now apply elem_of_empty in Hv. }
    refine (conj _ (conj _ (conj _ _))).
    + apply (Hafter 1); [now apply Hin |]. apply list_elem_of_singleton.
      reflexivity.
    + destruct (decide (0 ∈ gpucore_idr k2)) as [| Hout]; [assumption |].
      apply (Hafter 0) in Hout; [| now apply Hin].
      apply list_elem_of_singleton in Hout. discriminate.
    + destruct (decide (2 ∈ gpucore_idr k2)) as [| Hout]; [assumption |].
      apply (Hafter 2) in Hout; [| now apply Hin].
      apply list_elem_of_singleton in Hout. discriminate.
    + intros H3. apply (Hafter 3) in H3; [now apply (Hempty 3) |].
      intros Hv.
      repeat (apply elem_of_cons in Hv as [Hv | Hv]; [discriminate |]).
      now apply elem_of_nil in Hv.
  - apply (Huniq two_registered 100 200).
    + apply two_registered_reachable.
    + split; [reflexivity | exists 500; reflexivity].
    + split; [reflexivity | exists 600; reflexivity].
    + discriminate.
Defined.

(** C8 at the scenario: an eight-core device brought up on a fresh kernel,
    then asked for the states 3 and 6 with STOP. *)
Lemma fresh_controller_active_zero_witness :
  exists k' d,
    bring_up 64 100 8 true 500 boot = Some (0, k') /\
    kmem k' !! 100 = Some d /\
    stop_flag d = 0 /\ gpucore_state d = 0 /\ max_gpu_core_num d = 8 /\
    cdev_call 500 (gpucore_get_cur_state 64) k' = Some ((0, 0), k') /\
    0 <= gpucore_state
           (dev (requests STOP_BIT31 64 [3; Z.lor STOP_BIT31 6]
                   {| dev := d; pp_calls := [] |}).2) <= 8.
Proof.
  destruct (fresh_controller_active_zero STOP_BIT31 64 long_is_64
              boot 100 8 500)
    as (k' & d & Hup & Hd & Hstop & Hstate & Hmax & Hget & Hbounds).
  - discriminate.
  - discriminate.
  - vm_compute. discriminate.
  - split; vm_compute; discriminate.
  - exists k', d.
    refine (conj Hup (conj Hd (conj Hstop (conj Hstate
              (conj Hmax (conj Hget _)))))).
    apply Hbounds.
    repeat constructor; vm_compute; discriminate.
Defined.

(** C9 at the scenario: the eight-core device answers 8, before and after
    the requests, and through the framework; its core count in the kernel
    is the same after the request STOP|6. *)
Lemma get_max_state_pure_witness :
  gpucore_get_max_state 64 eight_cores = ((0, 8), eight_cores) /\
  (gpucore_get_max_state 64
     (requests STOP_BIT31 64 [3; Z.lor STOP_BIT31 6; 1] eight_cores).2).1
    = (0, 8) /\
  cdev_call 500 (gpucore_get_max_state 64) two_registered
    = Some ((0, 8), two_registered) /\
  max_gpu_core_num
    (with_stop_flag 1
       (with_gpucore_state 6
          (with_cool_dev 500 (with_max_gpu_core_num 8 zeroed))))
    = max_gpu_core_num (with_cool_dev 500 (with_max_gpu_core_num 8 zeroed)).
Proof.
  destruct (get_max_state_pure STOP_BIT31 64 long_is_64 eight_cores
              [3; Z.lor STOP_BIT31 6; 1])
    as (_ & Hmax & Hsame & _ & Hlive).
  destruct (get_max_state_pure STOP_BIT31 64 long_is_64
              {| dev := with_cool_dev 500 (with_max_gpu_core_num 8 zeroed);
                 pp_calls := [] |} [])
    as (_ & _ & _ & Hcall & _).
  refine (conj _ (conj _ (conj _ _))).
  - apply Hmax. split; vm_compute; discriminate.
  - rewrite Hsame, Hmax by (split; vm_compute; discriminate). reflexivity.
  - apply (Hcall two_registered 500 100); reflexivity.
  - apply (Hlive two_registered first_latched 100).
    + apply two_registered_reachable.
    + apply first_latched_step.
    + split; [reflexivity | exists 500; reflexivity].
    + split; [reflexivity | exists 500; reflexivity].
Defined.

(** C10 at the scenario: the binding of the structure at 100 accepted, and
    then rejected. *)
Lemma register_result_witness :
  (exists k' d',
     gpucore_cooling_register 64 true 500 100 two_allocated = Some (0, k') /\
     kmem k' !! 100 = Some d' /\ cool_dev d' = 500 /\
     thermal_cdevs k' !! 500 = Some 100) /\
  (exists k',
     gpucore_cooling_register 64 true 0 100 two_allocated
       = Some (ERR_PTR 64 (- EINVAL), k') /\
     kmem k' !! 100 = None) /\
  ERR_PTR 64 (- EINVAL) = 2 ^ 64 - 22.
Proof.
  destruct (register_result 64 long_is_64 true 500 100 two_allocated
              (with_max_gpu_core_num 8 zeroed))
    as (Hok & _ & Hval & _); [discriminate | reflexivity |].
  destruct (register_result 64 long_is_64 true 0 100 two_allocated
              (with_max_gpu_core_num 8 zeroed))
    as (_ & Hfail & _ & _); [discriminate | reflexivity |].
  refine (conj _ (conj _ Hval)).
  - apply Hok; [reflexivity | vm_compute; discriminate | discriminate].
  - apply Hfail. right. right. reflexivity.
Defined.

(** * The further properties, at the scenario *)

(** The hook calls of the scenario: none for requests to the latched device,
    5 and 2 for the requests 3, STOP|6 and 1, of which the first two are
    served. *)
Lemma hook_calls_follow_requests_witness :
  pp_calls (requests STOP_BIT31 64 [1; 8] latched).2 = [5; 2] /\
  pp_calls (requests STOP_BIT31 64 [3; Z.lor STOP_BIT31 6; 1] eight_cores).2
    = [5; 2] /\
  exists before state,
    served STOP_BIT31 [3; Z.lor STOP_BIT31 6; 1] = before ++ [state] /\
    has_stop STOP_BIT31 state /\ any_stop STOP_BIT31 before = false.
Proof.
  destruct (hook_calls_follow_requests STOP_BIT31 64 long_is_64 latched
              [1; 8]) as (Hnone & _ & _).
  destruct (hook_calls_follow_requests STOP_BIT31 64 long_is_64 eight_cores
              [3; Z.lor STOP_BIT31 6; 1])
    as (_ & Hcalls & rest & _ & _ & Hlast).
  refine (conj _ (conj _ _)).
  - apply Hnone. discriminate.
  - apply Hcalls. reflexivity.
  - apply Hlast. reflexivity.
Defined.

(** The state of the scenario after the requests 3, STOP|6 and 1: that of
    the request STOP|6. *)
Lemma state_follows_requests_witness :
  exists state,
    last (served STOP_BIT31 [3; Z.lor STOP_BIT31 6; 1]) = Some state /\
    gpucore_state (dev latched) = to_uint (requested STOP_BIT31 state) /\
    gpucore_get_cur_state 64 latched
      = ((0, to_uint (requested STOP_BIT31 state)), latched) /\
    stop_flag (dev latched) = 1 /\
    last (pp_calls latched) = Some 2.
Proof.
  apply (state_follows_requests STOP_BIT31 64 long_is_64 eight_cores
           [3; Z.lor STOP_BIT31 6; 1]).
  - reflexivity.
  - discriminate.
Defined.

(** The request STOP|6 through the cooling device 500 of the two registered
    devices. *)
Lemma request_touches_one_device_witness :
  cdev_call 500 (gpucore_set_cur_state STOP_BIT31 64 (Z.lor STOP_BIT31 6))
    two_registered = Some (0, first_latched) /\
  kmem first_latched !! 200 = kmem two_registered !! 200 /\
  cdev_call 500 (gpucore_get_cur_state 64) first_latched
    = Some ((0, 6), first_latched).
Proof.
  destruct (request_touches_one_device STOP_BIT31 64 two_registered 500 100
              (Z.lor STOP_BIT31 6) two_registered_reachable eq_refl)
    as (d & Hd & Hrun & Hframe & _ & _ & _ & Hget).
  injection Hd as <-.
  refine (conj Hrun (conj _ Hget)).
  apply (Hframe 200). discriminate.
Defined.

(** Registering the structure at 100 as the cooling device 500 and
    unregistering it. *)
Lemma register_then_unregister_witness :
  (gpucore_cooling_register 64 true 500 100;;
   gpucore_cooling_unregister 500) two_allocated
    = Some (tt, without_dev 100 two_allocated) /\
  gpucore_cooling_unregister 500 (without_dev 100 two_allocated) = None /\
  gpucore_cooling_unregister 0 (without_dev 100 two_allocated)
    = Some (tt, without_dev 100 two_allocated).
Proof.
  apply (register_then_unregister 64 two_allocated 100
           (with_max_gpu_core_num 8 zeroed) 500).
  - discriminate.
  - discriminate.
  - reflexivity.
  - reflexivity.
  - vm_compute. discriminate.
Defined.

(** The id 1 of the two registered devices: in use, held by the structure
    at 200, within the range of int. *)
Lemma ids_are_those_of_live_controllers_witness :
  (1 ∈ gpucore_idr two_registered <->
   exists p d, live two_registered p d /\ id d = 1) /\
  0 <= 1 <= INT_MAX.
Proof.
  destruct (ids_are_those_of_live_controllers STOP_BIT31 64 two_registered
              two_registered_reachable 1) as [Hiff Hrange].
  split; [exact Hiff |]. apply Hrange, Hiff.
  exists 200, (with_cool_dev 600 (with_id 1 (with_max_gpu_core_num 4 zeroed))).
  split; [| reflexivity].
  split; [reflexivity | exists 600; reflexivity].
Defined.

(** Unregistering the cooling device 500 of the two registered devices
    frees the id 0; the device at 200 stays. *)
Lemma unregister_frees_id_witness :
  exists d k',
    kmem two_registered !! 100 = Some d /\
    gpucore_cooling_unregister 500 two_registered = Some (tt, k') /\
    kmem k' !! 100 = None /\
    thermal_cdevs k' !! 500 = None /\
    (id d ∉ gpucore_idr k') /\
    smallest_unused (gpucore_idr k') <= id d /\
    hw_calls k' = hw_calls two_registered /\
    live k' 200
      (with_cool_dev 600 (with_id 1 (with_max_gpu_core_num 4 zeroed))).
Proof.
  destruct (unregister_frees_id STOP_BIT31 64 two_registered 500 100
              two_registered_reachable eq_refl)
    as (d & k' & Hd & Hrun & Hgone & Hcut & Hfree & Hnext & Hhw & Hothers).
  { discriminate. }
  exists d, k'.
  refine (conj Hd (conj Hrun (conj Hgone (conj Hcut
            (conj Hfree (conj Hnext (conj Hhw _))))))).
  apply (Hothers 200); [discriminate |].
  split; [reflexivity | exists 600; reflexivity].
Defined.

(** Allocation on a fresh kernel: failing, and at the address 100. *)
Lemma alloc_result_witness :
  gpucore_cooling_alloc 64 0 boot = Some (2 ^ 64 - 12, boot) /\
  exists k',
    gpucore_cooling_alloc 64 100 boot = Some (100, k') /\
    kmem k' !! 100 = Some zeroed.
Proof.
  destruct (alloc_result 64 long_is_64 0 boot)
    as (r0 & k0 & Hrun0 & _ & Hfail & _).
  destruct (alloc_result 64 long_is_64 100 boot)
    as (r1 & k1 & Hrun1 & _ & _ & Hok).
  destruct (Hfail eq_refl) as [-> ->].
  destruct Hok as (-> & Hzero & _); [discriminate |].
  split; [exact Hrun0 |]. exists k1. exact (conj Hrun1 Hzero).
Defined.

(** Registering a structure whose latch was set beforehand: the latch and
    the core count are kept, and the requests 3 and 5 are ignored. *)
Lemma register_writes_three_fields_witness :
  exists k' d',
    gpucore_cooling_register 64 true 500 100
      (with_dev 100 (with_stop_flag 1 (with_max_gpu_core_num 8 zeroed)) boot)
      = Some (0, k') /\
    kmem k' !! 100 = Some d' /\
    stop_flag d' = 1 /\ max_gpu_core_num d' = 8 /\ gpucore_state d' = 0 /\
    hw_calls k' = [] /\
    requests STOP_BIT31 64 [3; 5] {| dev := d'; pp_calls := [] |}
      = ([0; 0], {| dev := d'; pp_calls := [] |}).
Proof.
  destruct (register_writes_three_fields STOP_BIT31 64
              (with_dev 100 (with_stop_flag 1 (with_max_gpu_core_num 8 zeroed))
                 boot)
              100 (with_stop_flag 1 (with_max_gpu_core_num 8 zeroed)) 500)
    as (k' & d' & Hrun & Hd' & _ & _ & Hstate & Hstop & Hmax & Hhw & _ & _
        & _ & Hignored).
  - discriminate.
  - reflexivity.
  - vm_compute. discriminate.
  - exists k', d'.
    refine (conj Hrun (conj Hd' (conj Hstop (conj Hmax (conj Hstate
              (conj Hhw _)))))).
    apply (Hignored ltac:(discriminate) [3; 5] []).
Defined.

(** get_idr for the structure at 100 of the two allocated ones. *)
Lemma get_idr_result_witness :
  exists d,
    kmem two_allocated !! 100 = Some d /\
    kmem (with_dev 100 (with_id 0 (with_max_gpu_core_num 8 zeroed))
            {| gpucore_idr := {[0]}; kmem := kmem two_allocated;
               thermal_cdevs := ∅; hw_calls := [] |}) !! 100
      = Some (with_id 0 d).
Proof.
  destruct (get_idr_result true 100 two_allocated 0
              (with_dev 100 (with_id 0 (with_max_gpu_core_num 8 zeroed))
                 {| gpucore_idr := {[0]}; kmem := kmem two_allocated;
                    thermal_cdevs := ∅; hw_calls := [] |}))
    as [(_ & d & Hd & Hid & _) | [Hneg _]].
  - vm_compute. reflexivity.
  - exists d. exact (conj Hd Hid).
  - discriminate Hneg.
Defined.

(** Names in a buffer of 20 bytes: the ids 7 and 12, 999, and 1234. *)
Lemma dev_name_of_id_witness :
  (String.length (dev_name 20 1234) <= 19)%nat /\
  (dev_name 20 7 = dev_name 20 12 -> 7 = 12) /\
  dev_name 20 999 = "thermal-gpucore-999"%string /\
  dev_name 20 (10 * 123 + 4) = "thermal-gpucore-123"%string.
Proof.
  destruct (dev_name_of_id 20) as (Hfits & Hinj & Hwhole & Hcut).
  refine (conj (proj1 (Hfits 1234)) (conj _ (conj _ _))).
  - apply Hinj; vm_compute; lia.
  - exact (Hwhole 999 ltac:(lia) ltac:(lia)).
  - exact (Hcut 123 4 eq_refl ltac:(lia) ltac:(lia)).
Defined.

(** Two calls racing on the latched device of the scenario: nothing
    changes. *)
Lemma latch_holds_under_any_schedule_witness :
  stop_flag
    (dev (interleave STOP_BIT31 64 [1; 0; 0; 1; 0]%nat
            [AtLock 3; AtLock (Z.lor STOP_BIT31 2)] latched).2) <> 0 /\
  (interleave STOP_BIT31 64 [1; 0; 0; 1; 0]%nat
     [AtLock 3; AtLock (Z.lor STOP_BIT31 2)] latched).2 = latched /\
  Forall outside
    (interleave STOP_BIT31 64 [1; 0; 0; 1; 0]%nat
       [AtLock 3; AtLock (Z.lor STOP_BIT31 2)] latched).1.
Proof.
  destruct (latch_holds_under_any_schedule STOP_BIT31 64
              [1; 0; 0; 1; 0]%nat [AtLock 3; AtLock (Z.lor STOP_BIT31 2)]
              latched)
    as ((_ & _ & _ & Hlatch & _) & Hidle).
  split; [apply Hlatch; discriminate |].
  apply Hidle; [discriminate |].
  repeat constructor.
Defined.

